(** * Hardcover Sync: the reconciliation core of the Calibre plugin

    A shallow embedding of [HardcoverAPI] and [SyncJob] from
    [__init__.py], and the properties of the matcher, the throttle, the
    remote client and the sync run that follow from it.

    Conventions of the embedding:
    - text is [string]; the character model is ASCII, on which Python's
      [str.lower] and [str.strip] are the functions below;
    - a Python [dict] that is iterated is an association list in insertion
      order, a [dict] that is only looked up is a [gmap], a [set] is a
      [gset];
    - [None] is [None], Python truthiness is written out at each test;
    - an exception is a value of [exn], raising is the [inl] of a sum. *)

From stdpp Require Import gmap strings list pretty sorting.
From Stdlib Require Import ZArith QArith Lia Lqa Ascii String.

#[local] Open Scope string_scope.
#[local] Open Scope list_scope.
#[local] Open Scope Z_scope.

(** ** Python strings *)

Module Py.

(** [bool(s)] for a [str]. *)
Definition truthy (s : string) : bool :=
  match s with EmptyString => false | String _ _ => true
  end.

(** [bool(x)] for an [Optional[str]]. *)
Definition truthy_opt (o : option string) : bool :=
  match o with Some s => truthy s | None => false
  end.

Definition lower_char (c : ascii) : ascii :=
  let n := nat_of_ascii c in
  if ((65 <=? n)%nat && (n <=? 90)%nat)%bool then ascii_of_nat (n + 32) else c.

(** [s.lower()] *)
Fixpoint lower (s : string) : string :=
  match s with
  | EmptyString => EmptyString
  | String c r => String (lower_char c) (lower r)
  end.

(** [c.isspace()] on ASCII: TAB, LF, VT, FF, CR, FS, GS, RS, US, SPACE. *)
Definition isspace (c : ascii) : bool :=
  let n := nat_of_ascii c in
  (((9 <=? n)%nat && (n <=? 13)%nat) || ((28 <=? n)%nat && (n <=? 32)%nat))%bool.

(** [s.lstrip()] *)
Fixpoint lstrip (s : string) : string :=
  match s with
  | EmptyString => EmptyString
  | String c r => if isspace c then lstrip r else s
  end.

(** [s.rstrip()] *)
Fixpoint rstrip (s : string) : string :=
  match s with
  | EmptyString => EmptyString
  | String c r =>
      match rstrip r with
      | EmptyString => if isspace c then EmptyString else String c EmptyString
      | r' => String c r'
      end
  end.

(** [s.strip()] *)
Definition strip (s : string) : string := rstrip (lstrip s).

(** [s.replace(old, new)] for a one-character [old]. *)
Fixpoint replace (old : ascii) (new : string) (s : string) : string :=
  match s with
  | EmptyString => EmptyString
  | String c r =>
      if Ascii.eqb c old then new +:+ replace old new r
      else String c (replace old new r)
  end.

(** [sub in s] *)
Fixpoint str_in (sub s : string) : bool :=
  if String.prefix sub s then true
  else match s with
       | EmptyString => false
       | String _ r => str_in sub r
       end.

(** [str(n)] for an [int]. *)
Definition str_int (n : Z) : string := pretty n.

End Py.

(** ** The owned-books snapshot *)

(** One value of the dict built by [get_owned_books_with_titles]: the keys
    ['id'], ['title'], ['authors'], ['isbns'], ['slug']. *)
Record owned_book := OwnedBook {
  info_id : string;
  info_title : string;
  info_authors : list string;
  info_isbns : gset string;
  info_slug : option string
}.

(** [owned_books]: remote id -> [owned_book], iterated in insertion order. *)
Definition owned_dict := list (string * owned_book).

(** [d[k] = v]: an existing key keeps its place, a new key goes last. *)
Fixpoint dict_set (d : owned_dict) (k : string) (v : owned_book) : owned_dict :=
  match d with
  | [] => [(k, v)]
  | (k', v') :: r =>
      if String.eqb k' k then (k, v) :: r else (k', v') :: dict_set r k v
  end.

(** ** [HardcoverAPI.is_book_already_owned] *)

Module Matcher.

(** [isbn.replace('-', '').replace(' ', '') if isbn else None] *)
Definition clean_isbn_of (isbn : option string) : option string :=
  match isbn with
  | Some s =>
      if Py.truthy s then Some (Py.replace " " "" (Py.replace "-" "" s)) else None
  | None => None
  end.

(** [title.lower().strip()] *)
Definition clean_title_of (title : string) : string := Py.strip (Py.lower title).

(** Lines 292-294: [clean_isbn and book_info['isbns']], then membership. *)
Definition isbn_hit (clean_isbn : option string) (book_info : owned_book) : bool :=
  match clean_isbn with
  | Some c =>
      Py.truthy c && bool_decide (info_isbns book_info ≠ ∅)
      && bool_decide (c ∈ info_isbns book_info)
  | None => false
  end.

(** Lines 299-301. *)
Definition titles_match (clean_title t : string) : bool :=
  String.eqb clean_title t || Py.str_in clean_title t || Py.str_in t clean_title.

(** Lines 309-312: some pair with [ca in ha or ha in ca]. *)
Definition authors_overlap (calibre_authors hardcover_authors : list string) : bool :=
  existsb (fun ca =>
    existsb (fun ha => Py.str_in ca ha || Py.str_in ha ca) hardcover_authors)
    calibre_authors.

Definition nonempty {A} (l : list A) : bool :=
  match l with [] => false | _ :: _ => true
  end.

(** Lines 297-315. *)
Definition title_hit (clean_title : string) (authors : list string)
    (book_info : owned_book) : bool :=
  if Py.truthy (info_title book_info) && Py.truthy clean_title then
    if titles_match clean_title (info_title book_info) then
      if nonempty authors && nonempty (info_authors book_info) then
        authors_overlap (map (fun a => Py.strip (Py.lower a)) authors)
                        (map (fun a => Py.strip (Py.lower a)) (info_authors book_info))
      else true
    else false
  else false.

(** One turn of the loop of line 290: does it return [book_id]? *)
Definition entry_hit (clean_title : string) (authors : list string)
    (clean_isbn : option string) (book_info : owned_book) : bool :=
  isbn_hit clean_isbn book_info || title_hit clean_title authors book_info.

Fixpoint owned_loop (clean_title : string) (authors : list string)
    (clean_isbn : option string) (items : owned_dict) : option string :=
  match items with
  | [] => None
  | (book_id, book_info) :: rest =>
      if entry_hit clean_title authors clean_isbn book_info then Some book_id
      else owned_loop clean_title authors clean_isbn rest
  end.

Definition is_book_already_owned (title : string) (authors : list string)
    (isbn : option string) (owned_books : owned_dict) : option string :=
  owned_loop (clean_title_of title) authors (clean_isbn_of isbn) owned_books.


End Matcher.

(** ** Calibre metadata *)

(** The attributes of a Calibre [Metadata] object that the plugin reads.
    [md_pubdate] is the date as [str(metadata.pubdate.date())] prints it. *)
Record metadata := {
  md_title : option string;
  md_authors : list string;
  md_identifiers : gmap string string;
  md_subtitle : option string;
  md_comments : option string;
  md_publisher : option string;
  md_pages : option Z;
  md_pubdate : option string
}.

(** ** Exceptions and the state-and-exception monad *)

(** A raised [Exception]; [exn_msg] is [str(e)]. *)
Record exn := Exception { exn_msg : string }.

(** A computation over a mutable state [S] that returns or raises. What it
    wrote to the state before raising stays written. *)
Definition M (S A : Type) : Type := S -> (exn + A) * S.

Definition ret {S A} (a : A) : M S A := fun s => (inr a, s).

Definition raise {S A} (e : exn) : M S A := fun s => (inl e, s).

Definition bind {S A B} (m : M S A) (k : A -> M S B) : M S B :=
  fun s => match m s with
           | (inr a, s') => k a s'
           | (inl e, s') => (inl e, s')
           end.

(** [try: m  except Exception as e: h e] *)
Definition try_except {S A} (m : M S A) (h : exn -> M S A) : M S A :=
  fun s => match m s with
           | (inr a, s') => (inr a, s')
           | (inl e, s') => h e s'
           end.

Definition get {S} : M S S := fun s => (inr s, s).

Definition modify {S} (f : S -> S) : M S unit := fun s => (inr tt, f s).

#[global] Instance M_ret {S} : MRet (M S) := fun A a => ret a.
#[global] Instance M_bind {S} : MBind (M S) := fun A B k m => bind m k.

(** [for i, x in enumerate(l, start=i): body i x] *)
Fixpoint for_enumerate {S A} (body : Z -> A -> M S unit) (i : Z) (l : list A)
    : M S unit :=
  match l with
  | [] => ret tt
  | x :: r => body i x;; for_enumerate body (i + 1) r
  end.

(** [[f i x for i, x in enumerate(l, start=i)]] *)
Fixpoint enumerate_map {A B} (f : Z -> A -> B) (i : Z) (l : list A) : list B :=
  match l with
  | [] => []
  | x :: r => f i x :: enumerate_map f (i + 1) r
  end.

(** ** JSON as the client reads it *)

(** A key of a JSON object: missing, [null], or a value. [d.get(k, dflt)]
    gives [dflt] only on [Absent]. *)
Inductive field (A : Type) := Absent | Null | Val (a : A).
Arguments Absent {A}.
Arguments Null {A}.
Arguments Val {A} a.

Record author_json := { author_name : field string }.
Record contribution_json := { contribution_author : field author_json }.
Record edition_json := { isbn_10 : field string; isbn_13 : field string }.

(** A [books] row with the keys the plugin reads. *)
Record book_json := {
  book_id : field Z;
  book_title : field string;
  book_slug : field string;
  book_contributions : field (list contribution_json);
  book_editions : field (list edition_json)
}.

(** The empty object [{}]. *)
Definition empty_book : book_json :=
  {| book_id := Absent; book_title := Absent; book_slug := Absent;
     book_contributions := Absent; book_editions := Absent |}.

Record user_book_json := { user_book_book : field book_json }.

(** An [editions] row of the isbn search, with its nested [book]. *)
Record edition_row := {
  row_isbn_10 : field string;
  row_isbn_13 : field string;
  row_book : field book_json
}.

(** A search result: a book row, and for the isbn search the edition stored
    under ['matching_edition']. *)
Record candidate := {
  cand_book : book_json;
  matching_edition : option edition_row
}.

(** The [data] object of a response; a top-level key is missing ([None]) or
    holds its rows. *)
Record data := {
  data_books : option (list book_json);
  data_editions : option (list edition_row);
  data_user_books : option (list user_book_json);
  data_insert_user_books_one : field Z;
  data_insert_books_one : field book_json
}.

Definition empty_data : data :=
  {| data_books := None; data_editions := None; data_user_books := None;
     data_insert_user_books_one := Absent; data_insert_books_one := Absent |}.

(** The variables of the [CreateBook] mutation. *)
Record create_variables := {
  var_title : string;
  var_subtitle : option string;
  var_description : option string;
  var_release_date : option string;
  var_isbn_10 : option string;
  var_isbn_13 : option string;
  var_publisher : option string;
  var_pages : option Z
}.

(** The query documents, with their variables. *)
Inductive query :=
| TestConnection
| SearchBooksByTitle (title : string)
| SearchBooksByISBN (isbn10 isbn13 : option string)
| GetOwnedBooksWithTitles
| AddBookToOwned (book_id : Z)
| CreateBook (variables : create_variables).

(** What [urlopen], [read] and [json.loads] come to: one of the four
    [except] clauses of [run_query], or a decoded body.
    - [HTTPError] and [URLError] are raised by [urlopen] itself, before
      line 76; [JSONDecodeError] by [json.loads] on line 78, after it.
    - [OtherError opened msg] is the fourth clause: any other exception of
      the [try] block, raised by [urlopen] itself ([opened = false]) or by
      [resp.read().decode('utf-8')] on line 77, after [urlopen] has returned
      and line 76 has run ([opened = true]).
    - [MalformedBody error] is a body that decodes to JSON on which lines
      97-105 raise: a value that is not an object, or an ['errors'] list
      whose first element is not an object. [error] is the text of the
      [TypeError] or [AttributeError], which leaves [run_query] as it is.
    - [Body errors d] is an object with its optional ['errors'] (the message
      that [run_query] would report) and ['data']. *)
Inductive http_result :=
| HTTPError (code : Z) (reason : string)
| URLError (reason : string)
| JSONDecodeError (msg : string)
| OtherError (opened : bool) (msg : string)
| MalformedBody (error : string)
| Body (errors : option string) (body_data : option data).

(** The remote side: it answers a query after [latency] seconds and moves to
    a new state. *)
Record reply := { latency : Q; outcome : http_result }.

Definition transport (W : Type) : Type := W -> query -> reply * W.

(** ** [HardcoverAPI] *)

Module HardcoverAPI.
Section Client.

Context {W : Type}.

(** The instance attributes that change or are read ([self]), the wall
    clock [time.time()], and the remote side. [sent] is a ghost log: the
    clock at each request, newest first. *)
Record state := State {
  _last_request : Q;
  _rate_limit_delay : Q;
  _requests_per_minute : Z;
  clock : Q;
  remote : W;
  sent : list Q
}.

(** [HardcoverAPI(token, rate_limit_delay)] at time [now]. *)
Definition __init__ (rate_limit_delay : Q) (now : Q) (w : W) : state :=
  {| _last_request := 0; _rate_limit_delay := rate_limit_delay;
     _requests_per_minute := 60; clock := now; remote := w; sent := [] |}.

(** The clock [d] seconds after [t]; the fraction is kept in lowest terms. *)
Definition later (t d : Q) : Q := Qred (t + d).

(** [time.sleep(d)]: the clock moves on by [d], the least a sleep takes. *)
Definition sleep (d : Q) : M state unit :=
  modify (fun s => State (_last_request s) (_rate_limit_delay s)
                     (_requests_per_minute s) (later (clock s) d) (remote s) (sent s)).

Definition _throttle : M state unit :=
  s ← get;
  let elapsed := (clock s - _last_request s)%Q in
  let min_delay := (60 / inject_Z (_requests_per_minute s))%Q in
  if Qlt_le_dec elapsed min_delay then sleep (min_delay - elapsed)%Q else ret tt.

(** The request goes out at the current clock and the reply is there
    [latency] later. *)
Definition urlopen (tr : transport W) (q : query) : M state http_result :=
  s ← get;
  let '(r, w') := tr (remote s) q in
  modify (fun s => State (_last_request s) (_rate_limit_delay s)
                     (_requests_per_minute s) (later (clock s) (latency r)) w'
                     (clock s :: sent s));;
  ret (outcome r).

(** [self._last_request = time.time()] *)
Definition stamp : M state unit :=
  modify (fun s => State (clock s) (_rate_limit_delay s)
                     (_requests_per_minute s) (clock s) (remote s) (sent s)).

Definition http_error_msg (code : Z) (reason : string) : string :=
  let error_msg := "HTTP " +:+ Py.str_int code +:+ ": " +:+ reason in
  if code =? 401 then error_msg +:+ " - Invalid API token"
  else if code =? 429 then error_msg +:+ " - Rate limit exceeded"
  else error_msg.

(** Line 76 runs once [urlopen] has returned, so a body that cannot be
    read or decoded, or that is not of the expected shape, has stamped
    [_last_request], and a failure of [urlopen] itself has not. *)
Definition run_query (tr : transport W) (q : query) : M state data :=
  _throttle;;
  r ← urlopen tr q;
  match r with
  | Body errors d =>
      stamp;;
      match errors with
      | Some error_msg => raise (Exception ("GraphQL error: " +:+ error_msg))
      | None => ret (default empty_data d)
      end
  | JSONDecodeError e => stamp;; raise (Exception ("Invalid JSON response: " +:+ e))
  | HTTPError code reason => raise (Exception (http_error_msg code reason))
  | URLError reason => raise (Exception ("Network error: " +:+ reason))
  | OtherError opened e =>
      (if opened then stamp else ret tt);;
      raise (Exception ("Request failed: " +:+ e))
  | MalformedBody error => stamp;; raise (Exception error)
  end.

Definition as_candidate (b : book_json) : candidate :=
  {| cand_book := b; matching_edition := None |}.

(** Lines 164-166: the query of the title search. *)
Definition title_query (title : string) : query :=
  let search_title := "%" +:+ title +:+ "%" in
  SearchBooksByTitle search_title.

Definition search_books_by_title (tr : transport W) (title : string)
    : M state (list candidate) :=
  try_except
    (data ← run_query tr (title_query title);
     ret (as_candidate <$> default [] (data_books data)))
    (fun _ => ret []).

(** [bool(d)] for a book object: [{}] is falsy. *)
Definition book_truthy (b : book_json) : bool :=
  match book_id b, book_title b, book_slug b, book_contributions b, book_editions b with
  | Absent, Absent, Absent, Absent, Absent => false
  | _, _, _, _, _ => true
  end.

(** Lines 215-219. *)
Definition edition_to_book (edition : edition_row) : option candidate :=
  match row_book edition with
  | Val book =>
      if book_truthy book
      then Some {| cand_book := book; matching_edition := Some edition |}
      else None
  | _ => None
  end.

(** Lines 204-208: the query of the isbn search. *)
Definition isbn_query (isbn : string) : query :=
  let clean_isbn := Py.replace " " "" (Py.replace "-" "" isbn) in
  let isbn_10 := if (String.length clean_isbn =? 10)%nat then Some clean_isbn else None in
  let isbn_13 := if (String.length clean_isbn =? 13)%nat then Some clean_isbn else None in
  SearchBooksByISBN isbn_10 isbn_13.

Definition search_books_by_isbn (tr : transport W) (isbn : string)
    : M state (list candidate) :=
  try_except
    (data ← run_query tr (isbn_query isbn);
     let editions := default [] (data_editions data) in
     ret (omap edition_to_book editions))
    (fun _ => ret []).

Definition AttributeError : exn :=
  Exception "'NoneType' object has no attribute 'get'".
Definition AttributeError_lower : exn :=
  Exception "'NoneType' object has no attribute 'lower'".
Definition TypeError : exn :=
  Exception "'NoneType' object is not iterable".

(** Lines 259-264. *)
Definition add_isbn (f : field string) (isbns : gset string) : gset string :=
  match f with
  | Val s => if Py.truthy s then isbns ∪ {[ s ]} else isbns
  | _ => isbns
  end.

Definition edition_isbns (editions : list edition_json) : gset string :=
  foldl (fun isbns edition => add_isbn (isbn_13 edition) (add_isbn (isbn_10 edition) isbns))
        ∅ editions.

(** Lines 267-270; [contrib.get('author', {})] on a [null] author gives
    [None], whose [.get] raises. *)
Fixpoint contribution_authors (contribs : list contribution_json)
    : exn + list string :=
  match contribs with
  | [] => inr []
  | contrib :: r =>
      match contribution_author contrib with
      | Null => inl AttributeError
      | Absent => contribution_authors r
      | Val a =>
          match contribution_authors r with
          | inl e => inl e
          | inr authors =>
              match author_name a with
              | Val n => if Py.truthy n then inr (n :: authors) else inr authors
              | _ => inr authors
              end
          end
      end
  end.

(** [for edition in book_data.get('editions', [])] and its like: the rows
    looped over, or the [TypeError] of looping over [None]. *)
Definition rows {A} (f : field (list A)) : exn + list A :=
  match f with
  | Absent => inr []
  | Null => inl TypeError
  | Val l => inr l
  end.

(** [str(book_data.get('id', ''))] *)
Definition str_id (f : field Z) : string :=
  match f with
  | Absent => ""
  | Null => "None"
  | Val n => Py.str_int n
  end.

(** The body of the loop of line 253: the dict after this [user_book]. *)
Definition owned_entry (owned_books : owned_dict) (user_book : user_book_json)
    : exn + owned_dict :=
  match user_book_book user_book with
  | Null => inl AttributeError
  | fb =>
      let book_data := match fb with Val b => b | _ => empty_book end in
      let book_id := str_id (book_id book_data) in
      if Py.truthy book_id then
        match rows (book_editions book_data) with
        | inl e => inl e
        | inr editions =>
            let isbns := edition_isbns editions in
            match rows (book_contributions book_data) with
            | inl e => inl e
            | inr contribs =>
                match contribution_authors contribs with
                | inl e => inl e
                | inr authors =>
                    match book_title book_data with
                    | Null => inl AttributeError_lower
                    | ft =>
                        let title := match ft with Val t => t | _ => "" end in
                        inr (dict_set owned_books book_id
                               {| info_id := book_id;
                                  info_title := Py.strip (Py.lower title);
                                  info_authors := authors;
                                  info_isbns := isbns;
                                  info_slug := match book_slug book_data with
                                               | Val g => Some g
                                               | Absent => Some ""
                                               | Null => None
                                               end |})
                    end
                end
            end
        end
      else inr owned_books
  end.

Fixpoint owned_entries (owned_books : owned_dict) (user_books : list user_book_json)
    : exn + owned_dict :=
  match user_books with
  | [] => inr owned_books
  | user_book :: r =>
      match owned_entry owned_books user_book with
      | inl e => inl e
      | inr d => owned_entries d r
      end
  end.

(** A computation that touches no state. *)
Definition pure {A} (r : exn + A) : M state A := fun s => (r, s).

Definition get_owned_books_with_titles (tr : transport W) : M state owned_dict :=
  try_except
    (data ← run_query tr GetOwnedBooksWithTitles;
     let user_books := default [] (data_user_books data) in
     pure (owned_entries [] user_books))
    (fun _ => ret []).

(** Lines 394-403. *)
Definition metadata_isbns (metadata : metadata) : option string * option string :=
  match md_identifiers metadata !! "isbn" with
  | Some isbn =>
      if Py.truthy isbn then
        let clean_isbn := Py.replace " " "" (Py.replace "-" "" isbn) in
        if (String.length clean_isbn =? 10)%nat then (Some clean_isbn, None)
        else if (String.length clean_isbn =? 13)%nat then (None, Some clean_isbn)
        else (None, None)
      else (None, None)
  | None => (None, None)
  end.

Definition KeyError_id : exn := Exception "'id'".

Definition create_book_on_hardcover (tr : transport W) (title : string)
    (authors : list string) (metadata : metadata) : M state (option string) :=
  let variables :=
    {| var_title := title;
       var_subtitle := md_subtitle metadata;
       var_description := md_comments metadata;
       var_release_date := md_pubdate metadata;
       var_isbn_10 := fst (metadata_isbns metadata);
       var_isbn_13 := snd (metadata_isbns metadata);
       var_publisher := md_publisher metadata;
       var_pages := md_pages metadata |} in
  try_except
    (data ← run_query tr (CreateBook variables);
     match data_insert_books_one data with
     | Val created_book =>
         if book_truthy created_book then
           match book_id created_book with
           | Absent => raise KeyError_id
           | f => ret (Some (str_id f))
           end
         else ret None
     | _ => ret None
     end)
    (fun _ => ret None).

(** [int(s)] on the texts it is given here, the [str] of a remote id:
    blanks around, an optional sign, then decimal digits; anything else is a
    [ValueError]. *)
Fixpoint digits (s : string) (acc : Z) : option Z :=
  match s with
  | EmptyString => Some acc
  | String c r =>
      let n := Z.of_nat (nat_of_ascii c) in
      if (48 <=? n) && (n <=? 57) then digits r (10 * acc + (n - 48)) else None
  end.

Definition int (s : string) : exn + Z :=
  let bad := inl (Exception ("invalid literal for int() with base 10: '" +:+ s +:+ "'")) in
  match Py.strip s with
  | EmptyString => bad
  | String c r =>
      let '(neg, body) :=
        if Ascii.eqb c "-" then (true, r)
        else if Ascii.eqb c "+" then (false, r) else (false, String c r) in
      match body with
      | EmptyString => bad
      | _ => match digits body 0 with
             | Some n => inr (if neg : bool then - n else n)
             | None => bad
             end
      end
  end.

(** [int(book_id)] is evaluated before the [try]. *)
Definition add_book_to_owned (tr : transport W) (book_id : string) : M state bool :=
  n ← pure (int book_id);
  try_except
    (data ← run_query tr (AddBookToOwned n);
     ret (match data_insert_user_books_one data with
          | Val _ => true
          | _ => false
          end))
    (fun _ => ret false).

End Client.
Arguments state W : clear implicits.
End HardcoverAPI.

(** ** [SyncJob] *)

(** The collaborators a job is built with, as the run sees them: any object
    with these methods, over any state [S] of its own. Each method returns
    or raises. *)
Record Api (S : Type) := {
  get_owned_books_with_titles : M S owned_dict;
  search_books_by_isbn : string -> M S (list candidate);
  search_books_by_title : string -> M S (list candidate);
  create_book_on_hardcover : string -> list string -> metadata -> M S (option string);
  add_book_to_owned : string -> M S bool
}.
Arguments get_owned_books_with_titles {S}.
Arguments search_books_by_isbn {S}.
Arguments search_books_by_title {S}.
Arguments create_book_on_hardcover {S}.
Arguments add_book_to_owned {S}.

(** [db.get_metadata(book_id, index_is_id=True)] *)
Record Db (S : Type) := { get_metadata : Z -> M S metadata }.
Arguments get_metadata {S}.

(** The client of this plugin as such a collaborator. *)
Definition hardcover_api {W} (tr : transport W) : Api (HardcoverAPI.state W) :=
  {| get_owned_books_with_titles := HardcoverAPI.get_owned_books_with_titles tr;
     search_books_by_isbn := HardcoverAPI.search_books_by_isbn tr;
     search_books_by_title := HardcoverAPI.search_books_by_title tr;
     create_book_on_hardcover := HardcoverAPI.create_book_on_hardcover tr;
     add_book_to_owned := HardcoverAPI.add_book_to_owned tr |}.

Module SyncJob.

(** [self.results] *)
Record results := Results {
  added_to_owned : Z;
  skipped_already_owned : Z;
  created_new_books : Z;
  existing_owned_count : Z;
  errors : Z;
  error_details : list string
}.

(** An element of [books_to_process]. *)
Record book_entry := {
  calibre_id : Z;
  entry_metadata : metadata;
  entry_title : string;
  entry_authors : list string;
  entry_isbn : option string
}.

(** The loop a write to [self.percent] comes from; [Finished] is line 570. *)
Inductive phase := Comparing | Processing | Finished.

(** The calls made on the collaborators. *)
Inductive call :=
| GetOwned
| GetMetadata (book_id : Z)
| SearchIsbn (isbn : string)
| SearchTitle (title : string)
| CreateBookOn (title : string)
| AddToOwned (book_id : string).

Definition is_search (c : call) : Prop :=
  match c with SearchIsbn _ | SearchTitle _ => True | _ => False
  end.

Section Job.

Context {S : Type}.

(** The job's attributes, the locals of [run] that outlive a loop turn,
    and the state of the collaborators. [percent_writes] and [calls] are
    ghost logs in time order. *)
Record job := Job {
  job_results : results;
  percent : Z;
  status_message : string;
  owned_books : owned_dict;
  books_to_process : list book_entry;
  outside : S;
  percent_writes : list (phase * Z);
  calls : list call
}.

(** [SyncJob(api, db, book_ids)] *)
Definition __init__ (s : S) : job :=
  {| job_results := Results 0 0 0 0 0 [];
     percent := 0;
     status_message := "Starting sync...";
     owned_books := [];
     books_to_process := [];
     outside := s;
     percent_writes := [];
     calls := [] |}.

Definition set_results (f : results -> results) : M job unit :=
  modify (fun j => Job (f (job_results j)) (percent j) (status_message j)
                     (owned_books j) (books_to_process j) (outside j)
                     (percent_writes j) (calls j)).

(** [self.percent = p] *)
Definition set_percent (ph : phase) (p : Z) : M job unit :=
  modify (fun j => Job (job_results j) p (status_message j)
                     (owned_books j) (books_to_process j) (outside j)
                     (percent_writes j ++ [(ph, p)]) (calls j)).

Definition set_status_message (m : string) : M job unit :=
  modify (fun j => Job (job_results j) (percent j) m
                     (owned_books j) (books_to_process j) (outside j)
                     (percent_writes j) (calls j)).

Definition set_owned_books (f : owned_dict -> owned_dict) : M job unit :=
  modify (fun j => Job (job_results j) (percent j) (status_message j)
                     (f (owned_books j)) (books_to_process j) (outside j)
                     (percent_writes j) (calls j)).

Definition set_books_to_process (f : list book_entry -> list book_entry)
    : M job unit :=
  modify (fun j => Job (job_results j) (percent j) (status_message j)
                     (owned_books j) (f (books_to_process j)) (outside j)
                     (percent_writes j) (calls j)).

(** A call on a collaborator: it runs on [outside] and is logged. *)
Definition invoke {A} (c : call) (m : M S A) : M job A :=
  fun j =>
    let '(r, s') := m (outside j) in
    (r, Job (job_results j) (percent j) (status_message j)
            (owned_books j) (books_to_process j) s'
            (percent_writes j) (calls j ++ [c])).

(** [self.results['errors'] += 1] and
    [self.results['error_details'].append(detail)] *)
Definition add_error (detail : string) : M job unit :=
  set_results (fun r => Results (added_to_owned r) (skipped_already_owned r)
                          (created_new_books r) (existing_owned_count r)
                          (errors r + 1) (error_details r ++ [detail])).

(** [self.results['error_details'].append(detail)] alone. *)
Definition add_detail (detail : string) : M job unit :=
  set_results (fun r => Results (added_to_owned r) (skipped_already_owned r)
                          (created_new_books r) (existing_owned_count r)
                          (errors r) (error_details r ++ [detail])).

Definition incr_added : M job unit :=
  set_results (fun r => Results (added_to_owned r + 1) (skipped_already_owned r)
                          (created_new_books r) (existing_owned_count r)
                          (errors r) (error_details r)).

Definition incr_skipped : M job unit :=
  set_results (fun r => Results (added_to_owned r) (skipped_already_owned r + 1)
                          (created_new_books r) (existing_owned_count r)
                          (errors r) (error_details r)).

Definition incr_created : M job unit :=
  set_results (fun r => Results (added_to_owned r) (skipped_already_owned r)
                          (created_new_books r + 1) (existing_owned_count r)
                          (errors r) (error_details r)).

Definition set_existing_owned_count (n : Z) : M job unit :=
  set_results (fun r => Results (added_to_owned r) (skipped_already_owned r)
                          (created_new_books r) n
                          (errors r) (error_details r)).

Variable api : Api S.
Variable db : Db S.

(** Lines 450-455. *)
Definition fetch_snapshot : M job unit :=
  try_except
    (owned ← invoke GetOwned (get_owned_books_with_titles api);
     set_owned_books (fun _ => owned);;
     set_existing_owned_count (Z.of_nat (List.length owned)))
    (fun e =>
       add_detail ("Failed to get owned books: " +:+ exn_msg e);;
       set_owned_books (fun _ => [])).

(** [metadata.title or 'Unknown Title'] *)
Definition title_of (metadata : metadata) : string :=
  match md_title metadata with
  | Some t => if Py.truthy t then t else "Unknown Title"
  | None => "Unknown Title"
  end.

(** [int((i / total_books) * 20)], in exact arithmetic. *)
Definition comparing_progress (total_books i : Z) : Z := (i * 20) / total_books.

(** Lines 464-498, the [try] block of a turn of the comparison loop. *)
Definition compare_attempt (total_books : Z) (i : Z) (book_id : Z) : M job unit :=
  let progress := comparing_progress total_books i in
  set_percent Comparing progress;;
  read ← try_except
           (metadata ← invoke (GetMetadata book_id) (get_metadata db book_id);
            ret (Some metadata))
           (fun e =>
              add_error ("Failed to read book " +:+ Py.str_int book_id +:+ ": "
                         +:+ exn_msg e);;
              ret None);
  match read with
  | None => ret tt
  | Some metadata =>
      let title := title_of metadata in
      let authors := md_authors metadata in
      let isbn := md_identifiers metadata !! "isbn" in
      j ← get;
      let existing_book_id :=
        Matcher.is_book_already_owned title authors isbn (owned_books j) in
      if Py.truthy_opt existing_book_id then incr_skipped
      else
        set_books_to_process (fun l => (l ++ [
          {| calibre_id := book_id; entry_metadata := metadata;
             entry_title := title; entry_authors := authors;
             entry_isbn := isbn |} ]))
  end.

(** Lines 463-503, one turn of the comparison loop. *)
Definition compare_book (total_books : Z) (i : Z) (book_id : Z) : M job unit :=
  try_except (compare_attempt total_books i book_id)
    (fun e =>
       add_error ("Error comparing book " +:+ Py.str_int book_id +:+ ": "
                  +:+ exn_msg e)).

(** Lines 530-545: the remote id of the book, or [None] where the source
    runs [continue]. *)
Definition resolve (book_info : book_entry) (search_results : list candidate)
    : M job (option string) :=
  let title := entry_title book_info in
  match search_results with
  | hardcover_book :: _ =>
      match book_id (cand_book hardcover_book) with
      | Absent => raise HardcoverAPI.KeyError_id
      | f => ret (Some (HardcoverAPI.str_id f))
      end
  | [] =>
      try_except
        (hardcover_book_id ←
           invoke (CreateBookOn title)
             (create_book_on_hardcover api title (entry_authors book_info)
                (entry_metadata book_info));
         if Py.truthy_opt hardcover_book_id then
           incr_created;; ret hardcover_book_id
         else
           add_error ("Failed to create book: " +:+ title);; ret None)
        (fun e =>
           add_error ("Error creating '" +:+ title +:+ "': " +:+ exn_msg e);;
           ret None)
  end.

(** The entry of lines 554-560. *)
Definition cache_entry (hardcover_book_id : string) (book_info : book_entry)
    : owned_book :=
  {| info_id := hardcover_book_id;
     info_title := Py.strip (Py.lower (entry_title book_info));
     info_authors := entry_authors book_info;
     info_isbns := match entry_isbn book_info with
                   | Some isbn => if Py.truthy isbn then {[ isbn ]} else ∅
                   | None => ∅
                   end;
     info_slug := Some "" |}.

(** Lines 548-563. *)
Definition mark_owned (book_info : book_entry) (hardcover_book_id : string)
    : M job unit :=
  if Py.truthy hardcover_book_id then
    success ← invoke (AddToOwned hardcover_book_id)
                (add_book_to_owned api hardcover_book_id);
    if success : bool then
      incr_added;;
      set_owned_books (fun d =>
        dict_set d hardcover_book_id (cache_entry hardcover_book_id book_info))
    else
      add_error ("Failed to add '" +:+ entry_title book_info +:+ "' to owned list")
  else ret tt.

(** Lines 519-524. *)
Definition search (book_info : book_entry) : M job (list candidate) :=
  search_results ←
    match entry_isbn book_info with
    | Some isbn =>
        if Py.truthy isbn
        then invoke (SearchIsbn isbn) (search_books_by_isbn api isbn)
        else ret []
    | None => ret []
    end;
  if Matcher.nonempty search_results then ret search_results
  else invoke (SearchTitle (entry_title book_info))
         (search_books_by_title api (entry_title book_info)).

(** [20 + int((i / len(books_to_process)) * 80) if books_to_process else
    100], in exact arithmetic; [n] is the length of the list. *)
Definition processing_progress (n i : Z) : Z :=
  if 0 <? n then 20 + (i * 80) / n else 100.

(** Lines 509-563, the [try] block of a turn of the processing loop. *)
Definition process_attempt (n : Z) (i : Z) (book_info : book_entry) : M job unit :=
  let progress := processing_progress n i in
  set_percent Processing progress;;
  search_results ← search book_info;
  resolved ← resolve book_info search_results;
  match resolved with
  | Some hardcover_book_id => mark_owned book_info hardcover_book_id
  | None => ret tt
  end.

(** Lines 508-568, one turn of the processing loop. *)
Definition process_book (n : Z) (i : Z) (book_info : book_entry) : M job unit :=
  try_except (process_attempt n i book_info)
    (fun e =>
       add_error ("Error processing '" +:+ entry_title book_info +:+ "': "
                  +:+ exn_msg e)).

Definition compare_all (book_ids : list Z) : M job unit :=
  let total_books := Z.of_nat (List.length book_ids) in
  set_books_to_process (fun _ => []);;
  set_status_message "Comparing with your Calibre library...";;
  for_enumerate (compare_book total_books) 0 book_ids.

Definition process_all : M job unit :=
  set_status_message "Processing new books...";;
  j ← get;
  let queue := books_to_process j in
  for_enumerate (process_book (Z.of_nat (List.length queue))) 0 queue.

Definition run (book_ids : list Z) : M job unit :=
  try_except
    (set_status_message "Fetching your current Hardcover library...";;
     fetch_snapshot;;
     compare_all book_ids;;
     process_all;;
     set_percent Finished 100;;
     set_status_message "Sync completed!")
    (fun e =>
       add_detail ("Sync job failed: " +:+ exn_msg e);;
       raise e).

(** The job at the points of [run] between its steps: after the snapshot
    step (line 455), at the start of the comparison loop (line 462), after
    it (line 503), at the start of the processing loop (line 507), after it
    (line 568), and at the end (line 571). *)
Definition fetched (j : job) : job :=
  snd (fetch_snapshot
         (snd (set_status_message "Fetching your current Hardcover library..." j))).

Definition comparing (j : job) : job :=
  snd (set_status_message "Comparing with your Calibre library..."
         (snd (set_books_to_process (fun _ => []) j))).

Definition compared (book_ids : list Z) (j : job) : job :=
  snd (for_enumerate (compare_book (Z.of_nat (List.length book_ids))) 0 book_ids
         (comparing j)).

Definition processing (j : job) : job :=
  snd (set_status_message "Processing new books..." j).

Definition processed (j : job) : job :=
  snd (for_enumerate
         (process_book (Z.of_nat (List.length (books_to_process j)))) 0
         (books_to_process j) (processing j)).

Definition finished (j : job) : job :=
  snd (set_status_message "Sync completed!" (snd (set_percent Finished 100 j))).

End Job.
Arguments job S : clear implicits.

End SyncJob.

(** Between two states of the results: no error was counted, or one error
    was counted and one detail appended. *)
Definition at_most_one_error (r r' : SyncJob.results) : Prop :=
  (SyncJob.errors r' = SyncJob.errors r
   /\ SyncJob.error_details r' = SyncJob.error_details r)
  \/ (SyncJob.errors r' = SyncJob.errors r + 1
      /\ exists detail, SyncJob.error_details r' = SyncJob.error_details r ++ [detail]).

(** No pair of normalised author names where one contains the other. *)
Definition no_author_pair (authors hardcover_authors : list string) : Prop :=
  forall a b, In a authors -> In b hardcover_authors ->
    Py.str_in (Py.strip (Py.lower a)) (Py.strip (Py.lower b)) = false
    /\ Py.str_in (Py.strip (Py.lower b)) (Py.strip (Py.lower a)) = false.

(** ** Predicates on text *)

(** The character [c] does not occur in [s]. *)
Fixpoint no_char (c : ascii) (s : string) : Prop :=
  match s with
  | EmptyString => True
  | String a r => a ≠ c /\ no_char c r
  end.

(** Every character of [s] is a decimal digit. *)
Fixpoint all_digits (s : string) : Prop :=
  match s with
  | EmptyString => True
  | String a r => (48 <= nat_of_ascii a <= 57)%nat /\ all_digits r
  end.

(** Whether [urlopen] returned a response, so that line 76 ran. *)
Definition answered (r : http_result) : bool :=
  match r with
  | Body _ _ | JSONDecodeError _ | MalformedBody _ => true
  | OtherError opened _ => opened
  | HTTPError _ _ | URLError _ => false
  end.

(** ** Well-formed snapshots *)

(** The keys of a snapshot are distinct and not empty, and each entry
    carries its key as ['id']. *)
Definition snapshot_wf (d : owned_dict) : Prop :=
  NoDup (map fst d)
  /\ Forall (fun p : string * owned_book => p.1 ≠ "" /\ info_id p.2 = p.1) d.

(** An entry as [get_owned_books_with_titles] builds it: the title is in the
    form the matcher compares, and no isbn and no author name is empty. *)
Definition fetched_entry (e : owned_book) : Prop :=
  (exists t, info_title e = Py.strip (Py.lower t))
  /\ ("" ∉ info_isbns e)
  /\ Forall (fun a => a ≠ "") (info_authors e).

(** A row of [user_books] on which the loop of line 253 raises: the book is
    [null], or the book has an id and a [null] title. *)
Definition bad_row (row : user_book_json) : Prop :=
  match user_book_book row with
  | Null => True
  | Val b => book_id b ≠ Absent /\ book_title b = Null
  | Absent => False
  end.

(** ** [HardcoverSyncAction.sync_library] *)

(** What [sync_library] ends in: the question whether to open the settings,
    the error dialog, the "No Books" dialog, or the sync dialog on a client
    made with the token and the delay. *)
Inductive sync_outcome :=
| AskToConfigure
| FailedToGetBookList (msg : string)
| NoBooks
| ShowSyncDialog (token : string) (rate_limit_delay : Q) (book_ids : list Z).

(** Lines 861-901. [api_token] and [rate_limit_delay] are the preferences,
    [book_ids] the argument ([None] when absent), [get_selected_ids] and
    [all_ids] what the two calls on the database give. *)
Definition sync_library (api_token : string) (rate_limit_delay : Q)
    (book_ids : option (list Z)) (get_selected_ids all_ids : exn + list Z)
    : sync_outcome :=
  let token := Py.strip api_token in
  if negb (Py.truthy token) then AskToConfigure
  else
    let chosen :=
      match (match book_ids with
             | None => get_selected_ids
             | Some l => inr l
             end) with
      | inl e => inl e
      | inr l => if Matcher.nonempty l then inr l else all_ids
      end in
    match chosen with
    | inl e => FailedToGetBookList ("Failed to get book list: " +:+ exn_msg e)
    | inr l => if Matcher.nonempty l then ShowSyncDialog token rate_limit_delay l
               else NoBooks
    end.

(** ** The isbns of the remote *)



(** ** Concrete snapshots, books and remotes *)

Module Scenario.

Definition entry (id title : string) (authors : list string) (isbns : gset string)
    : string * owned_book :=
  (id, {| info_id := id; info_title := title; info_authors := authors;
          info_isbns := isbns; info_slug := Some "" |}).

(** An entry that matches "Dune" by title, before one that holds its isbn. *)
Definition title_before_isbn : owned_dict :=
  [ entry "1" "dune" [] ∅; entry "2" "children of time" [] {[ "9780441013593" ]} ].

Definition dune_only : owned_dict := [ entry "7" "dune" [] ∅ ].

Definition two_authors : owned_dict :=
  [ entry "3" "dune" ["Brian Herbert"] ∅; entry "4" "dune messiah" [] ∅ ].

(** A remote that answers every query after 20 ms with the same [data]. *)
Definition answers (d : data) : transport unit :=
  fun w _ => ({| latency := 1 # 50; outcome := Body None (Some d) |}, w).

(** A remote that cannot be reached. *)
Definition unreachable : transport unit :=
  fun w _ => ({| latency := 1 # 50; outcome := URLError "unreachable" |}, w).

(** A fresh client with the default [rate_limit_delay] of 1.1 s. *)
Definition client : HardcoverAPI.state unit := HardcoverAPI.__init__ (11 # 10) 100 tt.

(** The clock after two calls in a row on a fresh client, and the times at
    which the two requests went out. *)
Definition two_calls (rate_limit_delay : Q) : list Q * Q :=
  let s0 := HardcoverAPI.__init__ rate_limit_delay 100 tt in
  let s1 := snd (HardcoverAPI.run_query (answers empty_data) TestConnection s0) in
  let s2 := snd (HardcoverAPI.run_query (answers empty_data) TestConnection s1) in
  (HardcoverAPI.sent s2, HardcoverAPI.clock s2).

(** A catalog that holds the books of [table] and fails on any other id. *)
Definition catalog {S} (table : gmap Z metadata) : Db S :=
  {| get_metadata := fun book_id =>
       match table !! book_id with
       | Some metadata => ret metadata
       | None => raise (Exception "no such book")
       end |}.

Definition book (title : string) (authors : list string) (isbn : option string)
    : metadata :=
  {| md_title := Some title; md_authors := authors;
     md_identifiers := match isbn with Some i => {[ "isbn" := i ]} | None => ∅ end;
     md_subtitle := None; md_comments := None; md_publisher := None;
     md_pages := None; md_pubdate := None |}.

(** A job on a fresh client. *)
Definition fresh_job : SyncJob.job (HardcoverAPI.state unit) := SyncJob.__init__ client.

(** A run over an empty selection while the remote cannot be reached. *)
Definition run_unreachable : (exn + unit) * SyncJob.job (HardcoverAPI.state unit) :=
  SyncJob.run (hardcover_api unreachable) (catalog ∅) [] fresh_job.

Definition remote_book (id : field Z) (title : string) : book_json :=
  {| book_id := id; book_title := Val title; book_slug := Val "";
     book_contributions := Val []; book_editions := Val [] |}.

(** A remote with an empty owned list that knows "Dune" by its isbn as book
    42, returns a row without id for the title "Broken", creates
    "Neuromancer" as book 77 and no other book, and marks only book 42
    owned. *)
Definition library : transport unit :=
  fun w q =>
    let d :=
      match q with
      | GetOwnedBooksWithTitles =>
          {| data_books := None; data_editions := None; data_user_books := Some [];
             data_insert_user_books_one := Absent; data_insert_books_one := Absent |}
      | SearchBooksByISBN _ isbn13 =>
          {| data_books := None;
             data_editions :=
               Some (if bool_decide (isbn13 = Some "9780441013593")
                     then [ {| row_isbn_10 := Null; row_isbn_13 := Val "9780441013593";
                               row_book := Val (remote_book (Val 42) "Dune") |} ]
                     else []);
             data_user_books := None;
             data_insert_user_books_one := Absent; data_insert_books_one := Absent |}
      | SearchBooksByTitle title =>
          {| data_books :=
               Some (if String.eqb title "%Broken%"
                     then [ remote_book Absent "Broken" ] else []);
             data_editions := None; data_user_books := None;
             data_insert_user_books_one := Absent; data_insert_books_one := Absent |}
      | AddBookToOwned id =>
          {| data_books := None; data_editions := None; data_user_books := None;
             data_insert_user_books_one := if id =? 42 then Val 1 else Null;
             data_insert_books_one := Absent |}
      | CreateBook variables =>
          {| data_books := None; data_editions := None; data_user_books := None;
             data_insert_user_books_one := Absent;
             data_insert_books_one :=
               if String.eqb (var_title variables) "Neuromancer"
               then Val (remote_book (Val 77) "Neuromancer") else Null |}
      | TestConnection => empty_data
      end in
    ({| latency := 1 # 50; outcome := Body None (Some d) |}, w).

Definition dune : metadata := book "Dune" ["Frank Herbert"] (Some "978-0-441-01359-3").
Definition broken : metadata := book "Broken" [] None.
Definition solaris : metadata := book "Solaris" ["Stanislaw Lem"] None.
Definition neuromancer : metadata := book "Neuromancer" ["William Gibson"] None.

(** Books 1, 3, 4 and 5; book 2 cannot be read. *)
Definition shelf : gmap Z metadata :=
  {[ 1 := dune; 3 := broken; 4 := solaris; 5 := neuromancer ]}.

Definition queued (id : Z) (metadata : metadata) : SyncJob.book_entry :=
  {| SyncJob.calibre_id := id; SyncJob.entry_metadata := metadata;
     SyncJob.entry_title := SyncJob.title_of metadata;
     SyncJob.entry_authors := md_authors metadata;
     SyncJob.entry_isbn := md_identifiers metadata !! "isbn" |}.

(** The run over the five books. *)
Definition run_shelf : (exn + unit) * SyncJob.job (HardcoverAPI.state unit) :=
  SyncJob.run (hardcover_api library) (catalog shelf) [1; 2; 3; 4; 5] fresh_job.

(** The run over "Dune" alone. *)
Definition run_dune : (exn + unit) * SyncJob.job (HardcoverAPI.state unit) :=
  SyncJob.run (hardcover_api library) (catalog shelf) [1] fresh_job.

(** A remote whose owned list has a good row for book 42 and a row whose
    book is [null]. *)
Definition owned_with_null : transport unit :=
  answers {| data_books := None; data_editions := None;
             data_user_books :=
               Some [ {| user_book_book := Val (remote_book (Val 42) "Dune") |};
                      {| user_book_book := Null |} ];
             data_insert_user_books_one := Absent;
             data_insert_books_one := Absent |}.

(** A collaborator all of whose calls raise. *)
Definition offline : Api unit :=
  {| get_owned_books_with_titles := raise (Exception "offline");
     search_books_by_isbn := fun _ => raise (Exception "offline");
     search_books_by_title := fun _ => raise (Exception "offline");
     create_book_on_hardcover := fun _ _ _ => raise (Exception "offline");
     add_book_to_owned := fun _ => raise (Exception "offline") |}.

(** A remote whose owned list holds "Dune" as book 7, with the isbn of its
    edition written with hyphens; it finds and creates nothing. *)
Definition hyphenated : transport unit :=
  answers {| data_books := None; data_editions := None;
             data_user_books :=
               Some [ {| user_book_book :=
                           Val {| book_id := Val 7; book_title := Val "Dune";
                                  book_slug := Val "dune";
                                  book_contributions := Val [];
                                  book_editions :=
                                    Val [ {| isbn_10 := Null;
                                             isbn_13 := Val "978-0-441-01359-3" |} ]
                               |} |} ];
             data_insert_user_books_one := Absent;
             data_insert_books_one := Absent |}.

(** The same book in translation: another title, the same isbn. *)
Definition translation : metadata :=
  book "Der Wuestenplanet" ["Frank Herbert"] (Some "9780441013593").

(** The same owned list with the isbn written without hyphens. *)
Definition plain : transport unit :=
  answers {| data_books := None; data_editions := None;
             data_user_books :=
               Some [ {| user_book_book :=
                           Val {| book_id := Val 7; book_title := Val "Dune";
                                  book_slug := Val "dune";
                                  book_contributions := Val [];
                                  book_editions :=
                                    Val [ {| isbn_10 := Null;
                                             isbn_13 := Val "9780441013593" |} ]
                               |} |} ];
             data_insert_user_books_one := Absent;
             data_insert_books_one := Absent |}.

(** Books 1 and 2 of another library. *)
Definition imports : gmap Z metadata := {[ 1 := translation; 2 := solaris ]}.

(** The run over the two books, against a remote. *)
Definition run_imports (tr : transport unit)
    : (exn + unit) * SyncJob.job (HardcoverAPI.state unit) :=
  SyncJob.run (hardcover_api tr) (catalog imports) [1; 2] fresh_job.

End Scenario.

(** * Properties *)

(** ** Strings *)

Example lower_ex : Py.lower "Dune Messiah" = "dune messiah".
Proof. reflexivity. Qed.

Example strip_ex : Py.strip "  a b  " = "a b".
Proof. reflexivity. Qed.

Example replace_ex : Matcher.clean_isbn_of (Some "978-0 441") = Some "9780441".
Proof. reflexivity. Qed.

Example str_in_ex :
  Py.str_in "une" "dune" = true /\ Py.str_in "" "" = true /\ Py.str_in "dunes" "dune" = false.
Proof. repeat split. Qed.

Lemma truthy_ne (s : string) : Py.truthy s = true <-> s ≠ "".
Proof. destruct s; simpl; split; congruence. Qed.

Lemma nonempty_ne {A} (l : list A) : Matcher.nonempty l = true <-> l ≠ [].
Proof. destruct l; simpl; split; congruence. Qed.

(** ** The matcher *)

Section MatcherFacts.

Import Matcher.

Variables (clean_title : string) (authors : list string) (clean_isbn : option string).

Abbreviation miss := (fun p : string * owned_book =>
  entry_hit clean_title authors clean_isbn p.2 = false).

(** The loop returns the key of the first entry that hits. *)
Lemma owned_loop_first_hit (pre post : owned_dict) k e :
  Forall miss pre ->
  entry_hit clean_title authors clean_isbn e = true ->
  owned_loop clean_title authors clean_isbn (pre ++ (k, e) :: post) = Some k.
Proof.
  induction 1 as [|[k' e'] pre Hm _ IH]; intros Hhit; simpl.
  - now rewrite Hhit.
  - simpl in Hm. rewrite Hm. now apply IH.
Qed.

(** An entry that misses is passed over. *)
Lemma owned_loop_skip (pre post : owned_dict) :
  Forall miss pre ->
  owned_loop clean_title authors clean_isbn (pre ++ post)
  = owned_loop clean_title authors clean_isbn post.
Proof.
  induction 1 as [|[k' e'] pre Hm _ IH]; simpl; [reflexivity|].
  simpl in Hm. now rewrite Hm.
Qed.

(** Whatever the loop returns is the first hit in iteration order. *)
Lemma owned_loop_some (items : owned_dict) k :
  owned_loop clean_title authors clean_isbn items = Some k ->
  exists pre e post,
    items = pre ++ (k, e) :: post /\ Forall miss pre
    /\ entry_hit clean_title authors clean_isbn e = true.
Proof.
  induction items as [|[k' e'] r IH]; simpl; [discriminate|].
  destruct (entry_hit clean_title authors clean_isbn e') eqn:Hh.
  - intros [= <-]. exists [], e', r. now repeat split.
  - intros Hr. destruct (IH Hr) as (pre & e & post & -> & Hpre & He).
    exists ((k', e') :: pre), e, post. repeat split; [|assumption].
    constructor; assumption.
Qed.

Lemma owned_loop_none (items : owned_dict) :
  owned_loop clean_title authors clean_isbn items = None <-> Forall miss items.
Proof.
  induction items as [|[k' e'] r IH]; simpl.
  - split; [constructor|reflexivity].
  - destruct (entry_hit clean_title authors clean_isbn e') eqn:Hh.
    + split; [discriminate|]. intros H. inversion H; subst. simpl in *. congruence.
    + rewrite IH. split; [now constructor|]. intros H. now inversion H.
Qed.

End MatcherFacts.

Lemma isbn_hit_intro (c : string) (e : owned_book) :
  c ≠ "" -> c ∈ info_isbns e -> Matcher.isbn_hit (Some c) e = true.
Proof.
  intros Hc Hin. unfold Matcher.isbn_hit.
  apply truthy_ne in Hc. rewrite Hc. simpl.
  rewrite !bool_decide_eq_true_2; [reflexivity| assumption |].
  intros Hempty. rewrite Hempty in Hin. set_solver.
Qed.

(** C1, as stated: whenever the normalised isbn of the book is non-empty and
    in the isbn set of an entry of the snapshot, the matcher returns the id
    of that entry. It fails on a snapshot where an earlier entry matches by
    title: the matcher returns the earlier entry's id. *)
Lemma isbn_priority_counterexample :
  ~ (forall (title : string) (authors : list string) (isbn c : string)
       (S : owned_dict) (k : string) (e : owned_book),
       Matcher.clean_isbn_of (Some isbn) = Some c -> c ≠ "" ->
       In (k, e) S -> c ∈ info_isbns e ->
       Matcher.is_book_already_owned title authors (Some isbn) S = Some k).
Proof.
  intros H.
  specialize (H "Dune" [] "978-0-441-01359-3" "9780441013593"
                Scenario.title_before_isbn "2"
                (snd (Scenario.entry "2" "children of time" [] {[ "9780441013593" ]}))).
  assert (Hr : Matcher.is_book_already_owned "Dune" [] (Some "978-0-441-01359-3")
                 Scenario.title_before_isbn = Some "1") by reflexivity.
  rewrite Hr in H.
  enough (Some "1" = Some "2") by discriminate.
  apply H; [reflexivity | discriminate | right; left; reflexivity | ].
  simpl. set_solver.
Qed.

(** C1, amended: when the normalised isbn of the book is non-empty and in the
    isbn set of an entry, the matcher returns an id whatever the titles and
    authors are: the id of the first entry in iteration order that holds the
    isbn or passes the title and author rule. It is the id of the entry that
    holds the isbn when no entry before it is matched by either rule. *)
Theorem isbn_match_returns_first_hit (title : string) (authors : list string)
    (isbn c : string) (pre post : owned_dict) (k : string) (e : owned_book) :
  Matcher.clean_isbn_of (Some isbn) = Some c -> c ≠ "" -> c ∈ info_isbns e ->
  let hit := Matcher.entry_hit (Matcher.clean_title_of title) authors (Some c) in
  let r := Matcher.is_book_already_owned title authors (Some isbn)
             (pre ++ (k, e) :: post) in
  (exists pre' k' e' post',
      pre ++ (k, e) :: post = pre' ++ (k', e') :: post'
      /\ r = Some k' /\ hit e' = true
      /\ Forall (fun p => hit p.2 = false) pre')
  /\ (Forall (fun p => hit p.2 = false) pre -> r = Some k).
Proof.
  intros Hclean Hc Hin hit r.
  assert (He : hit e = true).
  { unfold hit, Matcher.entry_hit. now rewrite isbn_hit_intro. }
  assert (Hk : Forall (fun p => hit p.2 = false) pre -> r = Some k).
  { intros Hpre. unfold r, Matcher.is_book_already_owned. rewrite Hclean.
    now apply owned_loop_first_hit. }
  split; [|exact Hk].
  destruct r as [k'|] eqn:Hr.
  - unfold r, Matcher.is_book_already_owned in Hr. rewrite Hclean in Hr.
    destruct (owned_loop_some _ _ _ _ _ Hr) as (pre' & e' & post' & Heq & Hpre' & He').
    exists pre', k', e', post'. now repeat split.
  - exfalso. unfold r, Matcher.is_book_already_owned in Hr. rewrite Hclean in Hr.
    apply owned_loop_none in Hr.
    apply Forall_app in Hr as [_ Hr]. inversion Hr; subst. simpl in *.
    unfold hit in He. congruence.
Qed.

Lemma isbn_match_returns_first_hit_witness :
  Matcher.is_book_already_owned "Children of Time" ["A. Tchaikovsky"]
    (Some "978-0-441-01359-3") Scenario.title_before_isbn = Some "2".
Proof.
  refine (proj2 (isbn_match_returns_first_hit "Children of Time" ["A. Tchaikovsky"]
            "978-0-441-01359-3" "9780441013593"
            [Scenario.entry "1" "dune" [] ∅] []
            "2" (snd (Scenario.entry "2" "children of time" [] {[ "9780441013593" ]}))
            _ _ _) _).
  - reflexivity.
  - discriminate.
  - simpl. set_solver.
  - repeat constructor.
Defined.

Lemma authors_overlap_false (authors hardcover_authors : list string) :
  no_author_pair authors hardcover_authors ->
  Matcher.authors_overlap (map (fun a => Py.strip (Py.lower a)) authors)
    (map (fun a => Py.strip (Py.lower a)) hardcover_authors) = false.
Proof.
  intros Hno. unfold Matcher.authors_overlap.
  apply not_true_is_false. intros Hex.
  apply existsb_exists in Hex as (ca & Hca & Hex).
  apply existsb_exists in Hex as (ha & Hha & Hex).
  apply in_map_iff in Hca as (a & <- & Ha).
  apply in_map_iff in Hha as (b & <- & Hb).
  destruct (Hno a b Ha Hb) as [H1 H2]. rewrite H1, H2 in Hex. discriminate.
Qed.

(** C7, as stated: an entry reached by the loop whose normalised title
    matches the candidate's (equal, or one contains the other) is returned
    when either side has no author data, and is passed over when both sides
    have authors and no pair of names overlaps. The first part fails for a
    candidate whose title is blank: the empty string is contained in every
    title, and the matcher returns nothing. The second part fails for an
    entry that holds the candidate's isbn: it is returned. *)
Lemma title_rule_counterexample :
  ~ (forall (title : string) (authors : list string) (isbn : option string)
       (pre post : owned_dict) (k : string) (e : owned_book),
       Matcher.titles_match (Matcher.clean_title_of title) (info_title e) = true ->
       Forall (fun p => Matcher.entry_hit (Matcher.clean_title_of title) authors
                          (Matcher.clean_isbn_of isbn) p.2 = false) pre ->
       authors = [] \/ info_authors e = [] ->
       Matcher.is_book_already_owned title authors isbn (pre ++ (k, e) :: post)
       = Some k)
  /\ ~ (forall (title : string) (authors : list string) (isbn : option string)
       (pre post : owned_dict) (k : string) (e : owned_book),
       Matcher.titles_match (Matcher.clean_title_of title) (info_title e) = true ->
       Forall (fun p => Matcher.entry_hit (Matcher.clean_title_of title) authors
                          (Matcher.clean_isbn_of isbn) p.2 = false) pre ->
       authors ≠ [] -> info_authors e ≠ [] ->
       no_author_pair authors (info_authors e) ->
       Matcher.is_book_already_owned title authors isbn (pre ++ (k, e) :: post)
       = Matcher.is_book_already_owned title authors isbn post).
Proof.
  split; intros H.
  - pose proof (H "   " [] None [] [] "7" (snd (Scenario.entry "7" "dune" [] ∅))
                  eq_refl (List.Forall_nil _) (or_introl eq_refl)) as Hr.
    vm_compute in Hr. discriminate.
  - assert (Hno : no_author_pair ["Frank Herbert"] ["Brian Herbert"]).
    { intros a b [<-|[]] [<-|[]]. split; reflexivity. }
    pose proof (H "Dune" ["Frank Herbert"] (Some "9780441013593") [] [] "3"
                  (snd (Scenario.entry "3" "dune" ["Brian Herbert"]
                          {[ "9780441013593" ]}))
                  eq_refl (List.Forall_nil _) ltac:(discriminate) ltac:(discriminate)
                  Hno) as Hr.
    vm_compute in Hr. discriminate.
Qed.

(** C7, amended: for an entry reached by the loop (no entry before it is
    matched) whose normalised title and the candidate's are both non-empty
    and match (equal, or one contains the other): when either side has no
    author data the entry's id is returned; when both sides have authors, no
    pair of lowercased, trimmed names has one containing the other, and the
    entry does not hold the candidate's isbn, the entry is passed over and
    the result is that of the loop over the entries after it. *)
Theorem title_rule (title : string) (authors : list string) (isbn : option string)
    (pre post : owned_dict) (k : string) (e : owned_book) :
  Matcher.clean_title_of title ≠ "" -> info_title e ≠ "" ->
  Matcher.titles_match (Matcher.clean_title_of title) (info_title e) = true ->
  Forall (fun p => Matcher.entry_hit (Matcher.clean_title_of title) authors
                     (Matcher.clean_isbn_of isbn) p.2 = false) pre ->
  (authors = [] \/ info_authors e = [] ->
   Matcher.is_book_already_owned title authors isbn (pre ++ (k, e) :: post) = Some k)
  /\ (authors ≠ [] -> info_authors e ≠ [] ->
      no_author_pair authors (info_authors e) ->
      Matcher.isbn_hit (Matcher.clean_isbn_of isbn) e = false ->
      Matcher.is_book_already_owned title authors isbn (pre ++ (k, e) :: post)
      = Matcher.is_book_already_owned title authors isbn post).
Proof.
  intros Ht He Hm Hpre.
  apply truthy_ne in Ht. apply truthy_ne in He.
  unfold Matcher.is_book_already_owned. split.
  - intros Hna. apply owned_loop_first_hit; [assumption|].
    unfold Matcher.entry_hit, Matcher.title_hit. rewrite Ht, He, Hm. simpl.
    assert (Hb : Matcher.nonempty authors && Matcher.nonempty (info_authors e) = false).
    { destruct Hna as [-> | ->]; simpl; [reflexivity | apply andb_false_r]. }
    rewrite Hb. apply orb_true_r.
  - intros Ha Hb Hno Hisbn.
    rewrite (owned_loop_skip _ _ _ pre _ Hpre). simpl.
    unfold Matcher.entry_hit, Matcher.title_hit. rewrite Hisbn, Ht, He, Hm. simpl.
    apply nonempty_ne in Ha. apply nonempty_ne in Hb. rewrite Ha, Hb. simpl.
    now rewrite authors_overlap_false.
Qed.

Lemma title_rule_witness :
  Matcher.is_book_already_owned "Dune" [] None Scenario.dune_only = Some "7"
  /\ Matcher.is_book_already_owned "Dune" ["Frank Herbert"] None Scenario.two_authors
     = Matcher.is_book_already_owned "Dune" ["Frank Herbert"] None
         [Scenario.entry "4" "dune messiah" [] ∅].
Proof.
  split.
  - refine (proj1 (title_rule "Dune" [] None [] [] "7"
                     (snd (Scenario.entry "7" "dune" [] ∅)) _ _ _ _) _).
    + discriminate.
    + discriminate.
    + reflexivity.
    + constructor.
    + now left.
  - refine (proj2 (title_rule "Dune" ["Frank Herbert"] None []
                     [Scenario.entry "4" "dune messiah" [] ∅] "3"
                     (snd (Scenario.entry "3" "dune" ["Brian Herbert"] ∅)) _ _ _ _)
                  _ _ _ _).
    + discriminate.
    + discriminate.
    + reflexivity.
    + constructor.
    + discriminate.
    + discriminate.
    + intros a b [<-|[]] [<-|[]]. split; reflexivity.
    + reflexivity.
Defined.

(** ** The throttle *)

(** The wait of [_throttle] does not depend on [_rate_limit_delay]. *)
Lemma throttle_ignores_rate_limit_delay {W} (s : HardcoverAPI.state W) (d : Q) :
  let s' := HardcoverAPI.State (HardcoverAPI._last_request s) d
              (HardcoverAPI._requests_per_minute s) (HardcoverAPI.clock s)
              (HardcoverAPI.remote s) (HardcoverAPI.sent s) in
  HardcoverAPI.clock (snd (HardcoverAPI._throttle s'))
  = HardcoverAPI.clock (snd (HardcoverAPI._throttle s)).
Proof.
  unfold HardcoverAPI._throttle, mbind, M_bind, bind, get. simpl.
  destruct (Qlt_le_dec _ _); reflexivity.
Qed.

(** C2: on a client configured with a [rate_limit_delay] of 1.1 s (and of
    5 s) and a remote that answers in 20 ms, the second of two calls goes
    out 1.02 s after the first, and the two calls take 1.04 s in all, which
    is less than (2 - 1) x [rate_limit_delay]. *)
Lemma two_calls_closer_than_rate_limit_delay :
  (exists t1 t2, fst (Scenario.two_calls (11 # 10)) = [t2; t1]
     /\ t2 - t1 == 51 # 50 /\ t2 - t1 < 11 # 10
     /\ snd (Scenario.two_calls (11 # 10)) - 100 == 104 # 100
     /\ snd (Scenario.two_calls (11 # 10)) - 100 < (2 - 1) * (11 # 10))%Q
  /\ (exists t1 t2, fst (Scenario.two_calls 5) = [t2; t1]
     /\ t2 - t1 == 51 # 50 /\ t2 - t1 < 5
     /\ snd (Scenario.two_calls 5) - 100 == 104 # 100
     /\ snd (Scenario.two_calls 5) - 100 < (2 - 1) * 5)%Q.
Proof.
  split; eexists _, _; (split; [vm_compute; reflexivity|]); repeat split.
Qed.

(** ** The remote client *)

Ltac unfold_m :=
  unfold mbind, M_bind, mret, M_ret, bind, ret, raise, try_except, get, modify,
    HardcoverAPI.pure in *.

(** C4: whatever the remote does, [search_books_by_title] and
    [search_books_by_isbn] return a list and do not raise; when the call
    inside raises, and when it yields no rows, the list is empty. *)
Theorem search_failure_returns_empty {W} (tr : transport W) (s : HardcoverAPI.state W) :
  (forall title : string,
     let call := HardcoverAPI.run_query tr (HardcoverAPI.title_query title) s in
     let r := HardcoverAPI.search_books_by_title tr title s in
     (exists l, fst r = inr l)
     /\ (forall e, fst call = inl e -> fst r = inr [])
     /\ (forall d, fst call = inr d -> default [] (data_books d) = [] -> fst r = inr []))
  /\ (forall isbn : string,
     let call := HardcoverAPI.run_query tr (HardcoverAPI.isbn_query isbn) s in
     let r := HardcoverAPI.search_books_by_isbn tr isbn s in
     (exists l, fst r = inr l)
     /\ (forall e, fst call = inl e -> fst r = inr [])
     /\ (forall d, fst call = inr d -> default [] (data_editions d) = [] -> fst r = inr [])).
Proof.
  split; intros x; cbv zeta;
    unfold HardcoverAPI.search_books_by_title, HardcoverAPI.search_books_by_isbn;
    unfold_m;
    destruct (HardcoverAPI.run_query tr _ s) as [[e|d] s']; simpl;
    (split; [eexists; reflexivity|]); split; try discriminate; try reflexivity.
  - intros d' [= <-] ->. reflexivity.
  - intros d' [= <-] ->. reflexivity.
Qed.

Lemma search_failure_returns_empty_witness :
  fst (HardcoverAPI.search_books_by_title Scenario.unreachable "Dune" Scenario.client)
  = inr []
  /\ fst (HardcoverAPI.search_books_by_isbn Scenario.unreachable "9780441013593"
            Scenario.client) = inr []
  /\ fst (HardcoverAPI.search_books_by_title (Scenario.answers empty_data) "Dune"
            Scenario.client) = inr []
  /\ fst (HardcoverAPI.search_books_by_isbn (Scenario.answers empty_data)
            "9780441013593" Scenario.client) = inr [].
Proof.
  pose proof (search_failure_returns_empty Scenario.unreachable Scenario.client)
    as [Ht Hi].
  pose proof (search_failure_returns_empty (Scenario.answers empty_data)
                Scenario.client) as [Ht' Hi'].
  split; [|split; [|split]].
  - exact (proj1 (proj2 (Ht "Dune")) _ eq_refl).
  - exact (proj1 (proj2 (Hi "9780441013593")) _ eq_refl).
  - exact (proj2 (proj2 (Ht' "Dune")) _ eq_refl eq_refl).
  - exact (proj2 (proj2 (Hi' "9780441013593")) _ eq_refl eq_refl).
Defined.

(** When the request of the snapshot fetch raises, the client method returns
    an empty dict and the handler of line 453 does not run: nothing is
    appended to [error_details]. *)
Lemma fetch_failure_not_recorded {W} (tr : transport W)
    (j : SyncJob.job (HardcoverAPI.state W)) (e : exn) :
  fst (HardcoverAPI.run_query tr GetOwnedBooksWithTitles (SyncJob.outside j)) = inl e ->
  let r := SyncJob.fetch_snapshot (hardcover_api tr) j in
  fst r = inr tt
  /\ SyncJob.owned_books (snd r) = []
  /\ SyncJob.error_details (SyncJob.job_results (snd r))
     = SyncJob.error_details (SyncJob.job_results j)
  /\ SyncJob.errors (SyncJob.job_results (snd r)) = SyncJob.errors (SyncJob.job_results j).
Proof.
  intros He. cbv zeta.
  unfold SyncJob.fetch_snapshot, SyncJob.invoke, SyncJob.set_owned_books,
    SyncJob.set_existing_owned_count, SyncJob.set_results, hardcover_api,
    HardcoverAPI.get_owned_books_with_titles. simpl.
  unfold_m.
  destruct (HardcoverAPI.run_query tr _ _) as [[e'|d] s']; [|discriminate].
  simpl. repeat split.
Qed.

(** C5: in a run whose snapshot fetch fails because the remote cannot be
    reached, the run goes on with an empty snapshot and ends, and
    [error_details] holds nothing about the fetch. *)
Lemma failed_fetch_leaves_no_detail :
  (exists e, fst (HardcoverAPI.run_query Scenario.unreachable GetOwnedBooksWithTitles
                    (SyncJob.outside Scenario.fresh_job)) = inl e)
  /\ fst Scenario.run_unreachable = inr tt
  /\ SyncJob.owned_books (snd Scenario.run_unreachable) = []
  /\ SyncJob.percent (snd Scenario.run_unreachable) = 100
  /\ SyncJob.error_details (SyncJob.job_results (snd Scenario.run_unreachable)) = [].
Proof.
  split; [eexists; reflexivity|]. repeat split.
Qed.

(** ** The sync run *)

Ltac unfold_job :=
  unfold SyncJob.process_book, SyncJob.process_attempt, SyncJob.search,
    SyncJob.resolve, SyncJob.mark_owned, SyncJob.compare_book,
    SyncJob.compare_attempt, SyncJob.fetch_snapshot, SyncJob.invoke,
    SyncJob.add_error, SyncJob.add_detail, SyncJob.incr_added,
    SyncJob.incr_skipped, SyncJob.incr_created, SyncJob.set_existing_owned_count,
    SyncJob.set_results, SyncJob.set_percent, SyncJob.set_status_message,
    SyncJob.set_owned_books, SyncJob.set_books_to_process in *;
  unfold_m.

(** *** Loops whose body does not raise *)

Section Loops.

Context {S A : Type}.
Variable body : Z -> A -> M S unit.
Hypothesis body_total : forall i x s, fst (body i x s) = inr tt.

Lemma for_enumerate_total (l : list A) (i : Z) (s : S) :
  fst (for_enumerate body i l s) = inr tt.
Proof.
  revert i s. induction l as [|x l IH]; intros i s; simpl; [reflexivity|].
  unfold_m. pose proof (body_total i x s) as Hb.
  destruct (body i x s) as [[e|[]] s1]; simpl in *; [discriminate|]. apply IH.
Qed.

Lemma for_enumerate_cons (x : A) (l : list A) (i : Z) (s : S) :
  for_enumerate body i (x :: l) s = for_enumerate body (i + 1) l (snd (body i x s)).
Proof.
  simpl. unfold_m. pose proof (body_total i x s) as Hb.
  destruct (body i x s) as [[e|[]] s1]; simpl in *; [discriminate|reflexivity].
Qed.

(** The loop over [pre ++ post] is the loop over [post] from where the loop
    over [pre] ends. *)
Lemma for_enumerate_app (pre post : list A) (i : Z) (s : S) :
  for_enumerate body i (pre ++ post) s
  = for_enumerate body (i + Z.of_nat (List.length pre)) post
      (snd (for_enumerate body i pre s)).
Proof.
  revert i s. induction pre as [|x pre IH]; intros i s.
  - simpl. now rewrite Z.add_0_r.
  - rewrite <- app_comm_cons, !for_enumerate_cons, IH.
    f_equal. simpl List.length. lia.
Qed.

End Loops.

(** What a loop appends to a log, when each turn appends one item. *)
Lemma for_enumerate_log {S A B} (body : Z -> A -> M S unit) (log : S -> list B)
    (item : Z -> A -> B) :
  (forall i x s, fst (body i x s) = inr tt) ->
  (forall i x s, log (snd (body i x s)) = log s ++ [item i x]) ->
  forall l i s,
    log (snd (for_enumerate body i l s)) = log s ++ enumerate_map item i l.
Proof.
  intros Htotal Hlog l. induction l as [|x l IH]; intros i s.
  - simpl. now rewrite app_nil_r.
  - rewrite (for_enumerate_cons _ Htotal), IH, Hlog. simpl.
    now rewrite <- app_assoc.
Qed.

Lemma enumerate_map_Forall {A B} (P : B -> Prop) (f : Z -> A -> B) (l : list A) (i : Z) :
  (forall k x, i <= k < i + Z.of_nat (List.length l) -> P (f k x)) ->
  Forall P (enumerate_map f i l).
Proof.
  revert i. induction l as [|x l IH]; intros i H; simpl; constructor.
  - apply H. simpl List.length. lia.
  - apply IH. intros k y Hk. apply H. simpl List.length. lia.
Qed.

Lemma enumerate_map_sorted {A} (f : Z -> A -> Z) (l : list A) (i : Z) :
  (forall k k' x x', k <= k' -> f k x <= f k' x') ->
  StronglySorted Z.le (enumerate_map f i l).
Proof.
  intros Hmono. revert i. induction l as [|x l IH]; intros i; simpl; constructor.
  - apply IH.
  - apply enumerate_map_Forall. intros k y Hk. apply Hmono. lia.
Qed.

Lemma enumerate_map_fmap {A B C} (g : B -> C) (f : Z -> A -> B) (l : list A) (i : Z) :
  g <$> enumerate_map f i l = enumerate_map (fun k x => g (f k x)) i l.
Proof.
  revert i. induction l as [|x l IH]; intros i; simpl; [reflexivity|].
  now rewrite <- IH.
Qed.

Lemma comparing_progress_bounds (total k : Z) :
  0 <= k < total -> 0 <= SyncJob.comparing_progress total k <= 20.
Proof.
  intros Hk. unfold SyncJob.comparing_progress. split.
  - apply Z.div_pos; lia.
  - apply Z.div_le_upper_bound; lia.
Qed.

Lemma processing_progress_bounds (n k : Z) :
  0 <= k < n -> 20 <= SyncJob.processing_progress n k <= 100.
Proof.
  intros Hk. unfold SyncJob.processing_progress.
  destruct (Z.ltb_spec 0 n); [|lia].
  assert (0 <= k * 80 / n) by (apply Z.div_pos; lia).
  assert (k * 80 / n <= 80) by (apply Z.div_le_upper_bound; lia).
  lia.
Qed.

Lemma comparing_progress_mono (total k k' : Z) :
  0 < total -> k <= k' ->
  SyncJob.comparing_progress total k <= SyncJob.comparing_progress total k'.
Proof.
  intros Ht Hk. unfold SyncJob.comparing_progress. apply Z.div_le_mono; lia.
Qed.

Lemma processing_progress_mono (n k k' : Z) :
  k <= k' -> SyncJob.processing_progress n k <= SyncJob.processing_progress n k'.
Proof.
  intros Hk. unfold SyncJob.processing_progress.
  destruct (Z.ltb_spec 0 n); [|lia].
  apply Z.add_le_mono_l, Z.div_le_mono; lia.
Qed.

Section RunFacts.

Import SyncJob.

Context {S : Type}.
Variables (api : Api S) (db : Db S).

(** X14: With a collaborator whose snapshot fetch raises, the run records the
    failure and goes on with an empty snapshot. *)
Lemma fetch_exception_recorded (j : job S) (e : exn) (s' : S) :
  get_owned_books_with_titles api (outside j) = (inl e, s') ->
  let r := fetch_snapshot api j in
  fst r = inr tt
  /\ owned_books (snd r) = []
  /\ error_details (job_results (snd r))
     = error_details (job_results j) ++ ["Failed to get owned books: " +:+ exn_msg e]
  /\ errors (job_results (snd r)) = errors (job_results j).
Proof.
  intros He. cbv zeta. unfold_job. rewrite He. simpl. repeat split.
Qed.

(** A search touches the collaborators and the call log, nothing else. *)
Lemma search_frame (b : book_entry) (j : job S) :
  let j1 := snd (search api b j) in
  job_results j1 = job_results j /\ owned_books j1 = owned_books j
  /\ books_to_process j1 = books_to_process j /\ percent j1 = percent j
  /\ percent_writes j1 = percent_writes j
  /\ exists cs, calls j1 = calls j ++ cs /\ Forall is_search cs.
Proof.
  cbv zeta. unfold_job.
  destruct (entry_isbn b) as [isbn|]; [destruct (Py.truthy isbn)|]; simpl.
  - destruct (search_books_by_isbn api isbn (outside j)) as [[e|l] s1]; simpl.
    + repeat split. exists [SearchIsbn isbn]. split; [reflexivity|]. repeat constructor.
    + destruct (Matcher.nonempty l); simpl.
      * repeat split. exists [SearchIsbn isbn]. split; [reflexivity|]. repeat constructor.
      * destruct (search_books_by_title api (entry_title b) s1) as [r s2]; simpl.
        repeat split. exists [SearchIsbn isbn; SearchTitle (entry_title b)].
        rewrite <- app_assoc. split; [reflexivity|]. repeat constructor.
  - destruct (search_books_by_title api (entry_title b) (outside j)) as [r s2]; simpl.
    repeat split. exists [SearchTitle (entry_title b)]. split; [reflexivity|].
    repeat constructor.
  - destruct (search_books_by_title api (entry_title b) (outside j)) as [r s2]; simpl.
    repeat split. exists [SearchTitle (entry_title b)]. split; [reflexivity|].
    repeat constructor.
Qed.

(** C8: for a queued book whose search yields no candidate and whose
    creation fails (raises, or returns no identifier), the turn of the loop
    ends normally, counts one error with one detail that names the book,
    leaves [created_new_books], [added_to_owned] and the snapshot as they
    were, and makes no call after the creation: the calls of the turn are
    searches and then the creation. *)
Theorem create_failure_is_one_error (n i : Z) (b : book_entry) (j j1 : job S)
    (r : exn + option string) (s2 : S) :
  search api b (snd (set_percent Processing (processing_progress n i) j))
  = (inr [], j1) ->
  create_book_on_hardcover api (entry_title b) (entry_authors b) (entry_metadata b)
    (outside j1) = (r, s2) ->
  match r with inl _ => True | inr o => Py.truthy_opt o = false end ->
  let j' := snd (process_book api n i b j) in
  fst (process_book api n i b j) = inr tt
  /\ errors (job_results j') = errors (job_results j) + 1
  /\ error_details (job_results j')
     = error_details (job_results j)
       ++ [match r with
           | inl e => "Error creating '" +:+ entry_title b +:+ "': " +:+ exn_msg e
           | inr _ => "Failed to create book: " +:+ entry_title b
           end]
  /\ created_new_books (job_results j') = created_new_books (job_results j)
  /\ added_to_owned (job_results j') = added_to_owned (job_results j)
  /\ owned_books j' = owned_books j
  /\ exists cs, calls j' = calls j ++ cs ++ [CreateBookOn (entry_title b)]
                /\ Forall is_search cs.
Proof.
  intros Hs Hc Hr.
  pose proof (search_frame b (snd (set_percent Processing (processing_progress n i) j)))
    as Hf.
  rewrite Hs in Hf. cbv zeta in Hf. simpl in Hf.
  destruct Hf as (Hres & Hown & _ & _ & _ & cs & Hcs & Hall).
  cbv zeta. unfold process_book, process_attempt. unfold_m.
  unfold set_percent, modify in Hs. simpl in Hs.
  unfold set_percent, modify. simpl.
  rewrite !Hs. simpl.
  unfold resolve, invoke, add_error, incr_created, set_results. unfold_m.
  rewrite Hc.
  destruct r as [e|o]; simpl.
  - rewrite Hres, Hown, Hcs.
    repeat split. exists cs. now rewrite app_assoc.
  - rewrite Hr. simpl. rewrite Hres, Hown, Hcs.
    repeat split. exists cs. now rewrite app_assoc.
Qed.

(** Resolving the remote id leaves the snapshot, [added_to_owned] and the
    progress as they were; it counts an error only where it returns [None]. *)
Lemma resolve_frame (b : book_entry) (l : list candidate) (j : job S) :
  let r := resolve api b l j in
  owned_books (snd r) = owned_books j
  /\ added_to_owned (job_results (snd r)) = added_to_owned (job_results j)
  /\ percent_writes (snd r) = percent_writes j
  /\ percent (snd r) = percent j
  /\ (fst r ≠ inr None ->
      errors (job_results (snd r)) = errors (job_results j)
      /\ error_details (job_results (snd r)) = error_details (job_results j)).
Proof.
  cbv zeta. unfold_job. destruct l as [|c l]; simpl.
  - destruct (create_book_on_hardcover api _ _ _ _) as [[e|o] s1]; simpl.
    + repeat split; congruence.
    + destruct (Py.truthy_opt o); simpl; repeat split; congruence.
  - destruct (book_id (cand_book c)); simpl; repeat split.
Qed.

(** Marking a book owned leaves the progress as it was; where it raises, it
    has changed neither the counters nor the snapshot. *)
Lemma mark_owned_frame (b : book_entry) (id : string) (j : job S) :
  let r := mark_owned api b id j in
  percent_writes (snd r) = percent_writes j
  /\ percent (snd r) = percent j
  /\ (forall e, fst r = inl e ->
      job_results (snd r) = job_results j /\ owned_books (snd r) = owned_books j).
Proof.
  cbv zeta. unfold_job. destruct (Py.truthy id); simpl.
  - destruct (add_book_to_owned api id (outside j)) as [[e|[|]] s1]; simpl;
      repeat split; discriminate.
  - repeat split; discriminate.
Qed.

(** A turn of the processing loop changes the snapshot only by the
    assignment of line 554, after a call of [add_book_to_owned] that
    returned [True]. *)
Lemma process_book_snapshot (n i : Z) (b : book_entry) (j : job S) :
  let j' := snd (process_book api n i b j) in
  (owned_books j' = owned_books j
   /\ added_to_owned (job_results j') = added_to_owned (job_results j))
  \/ (exists id s s',
        add_book_to_owned api id s = (inr true, s')
        /\ owned_books j' = dict_set (owned_books j) id (cache_entry id b)
        /\ added_to_owned (job_results j') = added_to_owned (job_results j) + 1).
Proof.
  cbv zeta. unfold process_book, process_attempt. unfold_m.
  unfold set_percent, modify. simpl.
  set (j0 := Job _ _ _ _ _ _ _ _).
  pose proof (search_frame b j0) as Hf. cbv zeta in Hf.
  destruct (search api b j0) as [[e|l] j1]; simpl in *.
  { destruct Hf as (-> & -> & _). left. split; reflexivity. }
  destruct Hf as (Hres1 & Hown1 & _).
  pose proof (resolve_frame b l j1) as Hg. cbv zeta in Hg.
  destruct (resolve api b l j1) as [[e|[id|]] j2]; simpl in *;
    destruct Hg as (Hown2 & Hadd2 & _);
    try (left; unfold add_error, set_results, modify; simpl;
         rewrite ?Hown2, ?Hadd2, ?Hown1, ?Hres1; split; reflexivity).
  unfold mark_owned, invoke, add_error, incr_added, set_owned_books, set_results.
  unfold_m.
  destruct (Py.truthy id); simpl;
    [|left; rewrite ?Hown2, ?Hadd2, ?Hown1, ?Hres1; split; reflexivity].
  destruct (add_book_to_owned api id (outside j2)) as [[e|[|]] s3] eqn:Hadd; simpl;
    try (left; rewrite ?Hown2, ?Hadd2, ?Hown1, ?Hres1; split; reflexivity).
  right. exists id, (outside j2), s3.
  rewrite Hown2, Hadd2, Hown1, Hres1. repeat split. exact Hadd.
Qed.

(** C10: for a queued book whose remote id was resolved (by search or by
    creation), when the call of [add_book_to_owned] on that id fails
    (returns [False] or raises), the turn of the loop ends normally with the
    snapshot and [added_to_owned] as they were before it; and a turn changes
    the snapshot only by inserting the entry made for the book, after a call
    of [add_book_to_owned] that returned [True], together with the increment
    of [added_to_owned]. *)
Theorem mark_owned_failure_keeps_snapshot (n i : Z) (b : book_entry) (j : job S) :
  let j' := snd (process_book api n i b j) in
  (forall (j1 j2 : job S) (l : list candidate) (id : string) (r : exn + bool) (s3 : S),
     search api b (snd (set_percent Processing (processing_progress n i) j))
     = (inr l, j1) ->
     resolve api b l j1 = (inr (Some id), j2) ->
     add_book_to_owned api id (outside j2) = (r, s3) ->
     r ≠ inr true ->
     fst (process_book api n i b j) = inr tt
     /\ owned_books j' = owned_books j
     /\ added_to_owned (job_results j') = added_to_owned (job_results j))
  /\ ((owned_books j' = owned_books j
       /\ added_to_owned (job_results j') = added_to_owned (job_results j))
      \/ (exists id s s',
            add_book_to_owned api id s = (inr true, s')
            /\ owned_books j' = dict_set (owned_books j) id (cache_entry id b)
            /\ added_to_owned (job_results j') = added_to_owned (job_results j) + 1)).
Proof.
  cbv zeta. split; [|apply process_book_snapshot].
  intros j1 j2 l id r s3 Hs Hr Ha Hfail.
  pose proof (search_frame b (snd (set_percent Processing (processing_progress n i) j)))
    as Hf.
  rewrite Hs in Hf. cbv zeta in Hf. simpl in Hf.
  destruct Hf as (Hres1 & Hown1 & _).
  pose proof (resolve_frame b l j1) as Hg. rewrite Hr in Hg. cbv zeta in Hg.
  simpl in Hg. destruct Hg as (Hown2 & Hadd2 & _).
  unfold process_book, process_attempt. unfold_m.
  unfold set_percent, modify in Hs. simpl in Hs.
  unfold set_percent, modify. simpl.
  rewrite !Hs. simpl. rewrite !Hr. simpl.
  unfold mark_owned, invoke, add_error, incr_added, set_owned_books, set_results.
  unfold_m.
  destruct (Py.truthy id); simpl;
    [|rewrite Hown2, Hadd2, Hown1, Hres1; repeat split].
  rewrite Ha.
  destruct r as [e|[|]]; simpl; try congruence;
    rewrite Hown2, Hadd2, Hown1, Hres1; repeat split.
Qed.

(** *** The turns of the two loops *)

Lemma compare_book_total (total i book_id : Z) (j : job S) :
  fst (compare_book db total i book_id j) = inr tt.
Proof.
  unfold_job. simpl.
  destruct (get_metadata db book_id (outside j)) as [[e|md] s1]; simpl; [reflexivity|].
  destruct (Py.truthy_opt _); reflexivity.
Qed.

Lemma process_book_total (n i : Z) (b : book_entry) (j : job S) :
  fst (process_book api n i b j) = inr tt.
Proof.
  unfold process_book. unfold_m.
  destruct (process_attempt api n i b j) as [[e|[]] j1]; reflexivity.
Qed.

(** Where the attempt of a turn of the processing loop raises, it has
    counted no error itself and has left the snapshot alone. *)
Lemma process_attempt_raise (n i : Z) (b : book_entry) (j ja : job S) (e : exn) :
  process_attempt api n i b j = (inl e, ja) ->
  errors (job_results ja) = errors (job_results j)
  /\ error_details (job_results ja) = error_details (job_results j)
  /\ added_to_owned (job_results ja) = added_to_owned (job_results j)
  /\ owned_books ja = owned_books j.
Proof.
  unfold process_attempt. unfold_m. unfold set_percent, modify. simpl.
  set (j0 := Job _ _ _ _ _ _ _ _).
  pose proof (search_frame b j0) as Hf. cbv zeta in Hf.
  destruct (search api b j0) as [[e1|l] j1]; simpl in *.
  { destruct Hf as (Hres & Hown & _). intros [= <- <-]. rewrite Hres, Hown.
    repeat split. }
  destruct Hf as (Hres1 & Hown1 & _).
  pose proof (resolve_frame b l j1) as Hg. cbv zeta in Hg.
  destruct (resolve api b l j1) as [[e2|[id|]] j2]; simpl in *;
    destruct Hg as (Hown2 & Hadd2 & _ & _ & Herr); try discriminate.
  - intros [= <- <-]. destruct Herr as [-> ->]; [discriminate|].
    rewrite Hadd2, Hown2, Hres1, Hown1. repeat split.
  - destruct Herr as [Herr Hdet]; [discriminate|].
    pose proof (mark_owned_frame b id j2) as Hm. cbv zeta in Hm.
    destruct (mark_owned api b id j2) as [r3 j3]; simpl in *.
    intros [= -> <-]. destruct Hm as (_ & _ & Hm).
    destruct (Hm e eq_refl) as [-> ->].
    rewrite Herr, Hdet, Hadd2, Hown2, Hres1, Hown1. repeat split.
Qed.

(** A turn of the comparison loop counts at most one error. *)
Lemma compare_book_errors (total i book_id : Z) (j : job S) :
  at_most_one_error (job_results j)
    (job_results (snd (compare_book db total i book_id j))).
Proof.
  unfold_job. simpl.
  destruct (get_metadata db book_id (outside j)) as [[e|md] s1]; simpl.
  - right. split; [reflexivity|]. eexists. reflexivity.
  - destruct (Py.truthy_opt _); left; split; reflexivity.
Qed.

(** A turn of the processing loop counts at most one error. *)
Lemma process_book_errors (n i : Z) (b : book_entry) (j : job S) :
  at_most_one_error (job_results j) (job_results (snd (process_book api n i b j))).
Proof.
  unfold process_book. unfold_m.
  destruct (process_attempt api n i b j) as [[e|[]] ja] eqn:Hattempt; simpl.
  { destruct (process_attempt_raise _ _ _ _ _ _ Hattempt) as (He & Hd & _).
    right. unfold add_error, set_results, modify. simpl. rewrite He, Hd.
    split; [reflexivity|]. eexists. reflexivity. }
  revert Hattempt. unfold process_attempt. unfold_m. unfold set_percent, modify. simpl.
  set (j0 := Job _ _ _ _ _ _ _ _).
  pose proof (search_frame b j0) as Hf. cbv zeta in Hf.
  destruct (search api b j0) as [[e1|l] j1]; simpl in *; [discriminate|].
  destruct Hf as (Hres1 & _).
  unfold resolve. unfold_m.
  destruct l as [|c l]; simpl.
  - unfold invoke.
    destruct (create_book_on_hardcover api _ _ _ (outside j1)) as [[e2|o] s2]; simpl.
    + intros [= <-]. right. unfold add_error, set_results, modify. simpl.
      rewrite Hres1. split; [reflexivity|]. eexists. reflexivity.
    + destruct o as [id|]; simpl.
      * destruct (Py.truthy id) eqn:Hid; simpl.
        -- unfold mark_owned, invoke. unfold_m. rewrite Hid. simpl.
           destruct (add_book_to_owned api id s2) as [[e3|[|]] s3]; simpl;
             [discriminate| |]; intros [= <-]; simpl; rewrite Hres1.
           ++ left. split; reflexivity.
           ++ right. split; [reflexivity|]. eexists. reflexivity.
        -- intros [= <-]. right. simpl. rewrite Hres1.
           split; [reflexivity|]. eexists. reflexivity.
      * intros [= <-]. right. simpl. rewrite Hres1.
        split; [reflexivity|]. eexists. reflexivity.
  - destruct (book_id (cand_book c)) as [| |id0] eqn:Hid0; simpl; [discriminate| |].
    + unfold mark_owned, invoke. unfold_m. simpl.
      destruct (add_book_to_owned api "None" (outside j1)) as [[e3|[|]] s3]; simpl;
        [discriminate| |]; intros [= <-]; simpl; rewrite Hres1.
      * left. split; reflexivity.
      * right. split; [reflexivity|]. eexists. reflexivity.
    + unfold mark_owned, invoke. unfold_m.
      match goal with
      | |- context [Py.truthy ?x] => destruct (Py.truthy x)
      end; simpl.
      * match goal with
        | |- context [add_book_to_owned api ?x ?y] =>
            destruct (add_book_to_owned api x y) as [[e3|[|]] s3]
        end; simpl; [discriminate| |]; intros [= <-]; simpl; rewrite Hres1.
        -- left. split; reflexivity.
        -- right. split; [reflexivity|]. eexists. reflexivity.
      * intros [= <-]. left. rewrite Hres1. split; reflexivity.
Qed.

(** *** Progress *)

Lemma compare_book_writes (total i book_id : Z) (j : job S) :
  percent_writes (snd (compare_book db total i book_id j))
  = percent_writes j ++ [(Comparing, comparing_progress total i)].
Proof.
  unfold_job. simpl.
  destruct (get_metadata db book_id (outside j)) as [[e|md] s1]; simpl; [reflexivity|].
  destruct (Py.truthy_opt _); reflexivity.
Qed.

Lemma process_book_writes (n i : Z) (b : book_entry) (j : job S) :
  percent_writes (snd (process_book api n i b j))
  = percent_writes j ++ [(Processing, processing_progress n i)].
Proof.
  unfold process_book, process_attempt. unfold_m. unfold set_percent, modify. simpl.
  set (j0 := Job _ _ _ _ _ _ _ _).
  pose proof (search_frame b j0) as Hf. cbv zeta in Hf.
  destruct (search api b j0) as [[e1|l] j1]; simpl in *;
    destruct Hf as (_ & _ & _ & _ & Hw1 & _).
  { unfold add_error, set_results, modify. simpl. now rewrite Hw1. }
  pose proof (resolve_frame b l j1) as Hg. cbv zeta in Hg.
  destruct (resolve api b l j1) as [[e2|[id|]] j2]; simpl in *;
    destruct Hg as (_ & _ & Hw2 & _);
    try (unfold add_error, set_results, modify; simpl; now rewrite Hw2, Hw1).
  pose proof (mark_owned_frame b id j2) as Hm. cbv zeta in Hm.
  destruct (mark_owned api b id j2) as [[e3|[]] j3]; simpl in *;
    destruct Hm as (Hw3 & _);
    unfold add_error, set_results, modify; simpl; now rewrite Hw3, Hw2, Hw1.
Qed.

Lemma fetch_snapshot_writes (j : job S) :
  percent_writes (snd (fetch_snapshot api j)) = percent_writes j.
Proof.
  unfold_job. simpl.
  destruct (get_owned_books_with_titles api (outside j)) as [[e|o] s1]; reflexivity.
Qed.

(** The writes of a whole run, from a job that has made none. *)
Lemma run_writes (book_ids : list Z) (s : S) :
  let r := run api db book_ids (SyncJob.__init__ s) in
  fst r = inr tt /\ percent (snd r) = 100
  /\ exists queue : list book_entry,
      percent_writes (snd r)
      = enumerate_map (fun k _ => (Comparing,
            comparing_progress (Z.of_nat (List.length book_ids)) k)) 0 book_ids
        ++ enumerate_map (fun k _ => (Processing,
            processing_progress (Z.of_nat (List.length queue)) k)) 0 queue
        ++ [(Finished, 100)].
Proof.
  cbv zeta. unfold run, compare_all, process_all. unfold_m.
  unfold set_status_message, set_books_to_process, set_percent, modify. simpl.
  set (j0 := Job _ _ _ _ _ _ _ _).
  pose proof (fetch_snapshot_writes j0) as Hw1.
  assert (Hf : fst (fetch_snapshot api j0) = inr tt).
  { unfold_job. simpl.
    destruct (get_owned_books_with_titles api s) as [[e|o] s1]; reflexivity. }
  destruct (fetch_snapshot api j0) as [[e|[]] j1]; simpl in *; [discriminate|].
  set (total := Z.of_nat (List.length book_ids)).
  set (j1' := Job _ _ _ _ _ _ _ _).
  pose proof (for_enumerate_total _ (compare_book_total total) book_ids 0 j1') as Hc.
  pose proof (for_enumerate_log (compare_book db total) percent_writes
                (fun k _ => (Comparing, comparing_progress total k))
                (compare_book_total total) (compare_book_writes total)
                book_ids 0 j1') as Hw2.
  destruct (for_enumerate _ 0 book_ids j1') as [[e|[]] j2]; simpl in *; [discriminate|].
  set (n := Z.of_nat (List.length (books_to_process j2))).
  set (j2' := Job _ _ _ _ _ _ _ _).
  pose proof (for_enumerate_total _ (process_book_total n) (books_to_process j2) 0 j2')
    as Hp.
  pose proof (for_enumerate_log (process_book api n) percent_writes
                (fun k _ => (Processing, processing_progress n k))
                (process_book_total n) (process_book_writes n)
                (books_to_process j2) 0 j2') as Hw3.
  destruct (for_enumerate _ 0 (books_to_process j2) j2') as [[e|[]] j3]; simpl in *;
    [discriminate|].
  repeat split. exists (books_to_process j2).
  rewrite Hw3, Hw2, Hw1. simpl. now rewrite <- app_assoc.
Qed.

(** C9: over the writes to [percent] of one run, in time order, the value
    never decreases; the writes of the comparison loop are within 0..20,
    those of the processing loop within 20..100, and the last write, with
    which the run ends, is 100. *)
Theorem progress_never_decreases (book_ids : list Z) (s : S) :
  let r := run api db book_ids (SyncJob.__init__ s) in
  fst r = inr tt /\ percent (snd r) = 100
  /\ StronglySorted Z.le (snd <$> percent_writes (snd r))
  /\ exists cs ps : list Z,
       percent_writes (snd r)
       = (pair Comparing <$> cs) ++ (pair Processing <$> ps) ++ [(Finished, 100)]
       /\ Forall (fun p => 0 <= p <= 20) cs
       /\ Forall (fun p => 20 <= p <= 100) ps.
Proof.
  destruct (run_writes book_ids s) as (Hr & Hp & queue & Hw). cbv zeta.
  split; [exact Hr|]. split; [exact Hp|].
  set (total := Z.of_nat (List.length book_ids)) in *.
  set (n := Z.of_nat (List.length queue)) in *.
  set (cs := enumerate_map (fun k (_ : Z) => comparing_progress total k) 0 book_ids).
  set (ps := enumerate_map (fun k (_ : book_entry) => processing_progress n k) 0 queue).
  assert (Hcs : Forall (fun p => 0 <= p <= 20) cs).
  { apply enumerate_map_Forall. intros k _ Hk. apply comparing_progress_bounds.
    unfold total. lia. }
  assert (Hps : Forall (fun p => 20 <= p <= 100) ps).
  { apply enumerate_map_Forall. intros k _ Hk. apply processing_progress_bounds.
    unfold n. lia. }
  assert (Heq : percent_writes (snd (run api db book_ids (SyncJob.__init__ s)))
                = (pair Comparing <$> cs) ++ (pair Processing <$> ps)
                  ++ [(Finished, 100)]).
  { rewrite Hw. unfold cs, ps. now rewrite !enumerate_map_fmap. }
  split; [|exists cs, ps; now repeat split].
  assert (Hsnd : forall (ph : phase) (l : list Z), snd <$> (pair ph <$> l) = l).
  { intros ph l. induction l as [|x l IH]; simpl; [reflexivity|].
    f_equal. exact IH. }
  rewrite Heq, !fmap_app, !Hsnd. simpl.
  rewrite Forall_forall in Hcs. rewrite Forall_forall in Hps.
  apply StronglySorted_app_2.
  - intros x y Hx Hy. apply Hcs in Hx.
    apply elem_of_app in Hy as [Hy|Hy].
    + apply Hps in Hy. lia.
    + apply list_elem_of_singleton in Hy. lia.
  - destruct book_ids as [|b0 rest]; [constructor|].
    apply enumerate_map_sorted. intros k k' _ _ Hk.
    apply comparing_progress_mono; [|exact Hk]. unfold total. simpl List.length. lia.
  - apply StronglySorted_app_2.
    + intros x y Hx Hy. apply Hps in Hx.
      apply list_elem_of_singleton in Hy. lia.
    + apply enumerate_map_sorted. intros k k' _ _ Hk.
      now apply processing_progress_mono.
    + repeat constructor.
Qed.

End RunFacts.

(** ** The run on concrete books *)

(** The entry made after a book is marked owned holds the isbn of the book
    as Calibre has it. *)
Lemma cache_entry_keeps_raw_isbn (id isbn : string) (b : SyncJob.book_entry) :
  SyncJob.entry_isbn b = Some isbn -> isbn ≠ "" ->
  info_isbns (SyncJob.cache_entry id b) = {[ isbn ]}.
Proof.
  intros Hi Hn. unfold SyncJob.cache_entry. rewrite Hi.
  apply truthy_ne in Hn. now rewrite Hn.
Qed.

(** The rows of the remote go into the snapshot as they are. *)
Example edition_isbns_raw :
  HardcoverAPI.edition_isbns [ {| isbn_10 := Null; isbn_13 := Val "978-0-441-01359-3" |} ]
  = {[ "978-0-441-01359-3" ]}.
Proof. reflexivity. Qed.

(** "Dune", whose isbn Calibre holds as 978-0-441-01359-3, is found on the
    remote as book 42 and marked owned. The entry the run then puts in the
    snapshot holds the isbn with its hyphens. *)
Example run_dune_snapshot :
  fst Scenario.run_dune = inr tt
  /\ SyncJob.added_to_owned (SyncJob.job_results (snd Scenario.run_dune)) = 1
  /\ exists e,
       SyncJob.owned_books (snd Scenario.run_dune) = [("42", e)]
       /\ info_isbns e = {[ "978-0-441-01359-3" ]}.
Proof.
  split; [reflexivity|]. split; [reflexivity|].
  eexists. split; [vm_compute; reflexivity|]. reflexivity.
Qed.

(** The run over the five books of the shelf: one is added, one is created,
    and each of the four failures is one error with its detail. *)
Example run_shelf_results :
  SyncJob.job_results (snd Scenario.run_shelf)
  = SyncJob.Results 1 0 1 0 4
      [ "Failed to read book 2: no such book";
        "Error processing 'Broken': 'id'";
        "Failed to create book: Solaris";
        "Failed to add 'Neuromancer' to owned list" ].
Proof. vm_compute. reflexivity. Qed.

Lemma create_failure_is_one_error_witness :
  let api := hardcover_api Scenario.library in
  let b := Scenario.queued 4 Scenario.solaris in
  let j := Scenario.fresh_job in
  let j' := snd (SyncJob.process_book api 4 2 b j) in
  SyncJob.errors (SyncJob.job_results j') = SyncJob.errors (SyncJob.job_results j) + 1
  /\ SyncJob.error_details (SyncJob.job_results j')
     = SyncJob.error_details (SyncJob.job_results j) ++ ["Failed to create book: Solaris"]
  /\ SyncJob.created_new_books (SyncJob.job_results j')
     = SyncJob.created_new_books (SyncJob.job_results j).
Proof.
  cbv zeta.
  set (api := hardcover_api Scenario.library).
  set (b := Scenario.queued 4 Scenario.solaris).
  set (j := Scenario.fresh_job).
  set (sr := SyncJob.search api b
               (snd (SyncJob.set_percent SyncJob.Processing
                       (SyncJob.processing_progress 4 2) j))).
  set (cr := create_book_on_hardcover api (SyncJob.entry_title b)
               (SyncJob.entry_authors b) (SyncJob.entry_metadata b)
               (SyncJob.outside (snd sr))).
  assert (Hs : sr = (inr [], snd sr)) by (vm_compute; reflexivity).
  assert (Hc : cr = (inr None, snd cr)) by (vm_compute; reflexivity).
  destruct (create_failure_is_one_error api 4 2 b j (snd sr) (inr None) (snd cr)
              Hs Hc eq_refl) as (_ & He & Hd & Hcr & _).
  split; [exact He|]. split; [exact Hd|exact Hcr].
Defined.

Lemma mark_owned_failure_keeps_snapshot_witness :
  let api := hardcover_api Scenario.library in
  let b := Scenario.queued 5 Scenario.neuromancer in
  let j := Scenario.fresh_job in
  let j' := snd (SyncJob.process_book api 4 3 b j) in
  SyncJob.owned_books j' = SyncJob.owned_books j
  /\ SyncJob.added_to_owned (SyncJob.job_results j')
     = SyncJob.added_to_owned (SyncJob.job_results j).
Proof.
  cbv zeta.
  set (api := hardcover_api Scenario.library).
  set (b := Scenario.queued 5 Scenario.neuromancer).
  set (j := Scenario.fresh_job).
  set (sr := SyncJob.search api b
               (snd (SyncJob.set_percent SyncJob.Processing
                       (SyncJob.processing_progress 4 3) j))).
  set (rr := SyncJob.resolve api b [] (snd sr)).
  set (ar := add_book_to_owned api "77" (SyncJob.outside (snd rr))).
  assert (Hs : sr = (inr [], snd sr)) by (vm_compute; reflexivity).
  assert (Hr : rr = (inr (Some "77"), snd rr)) by (vm_compute; reflexivity).
  assert (Ha : ar = (inr false, snd ar)) by (vm_compute; reflexivity).
  assert (Hne : @inr exn bool false ≠ inr true) by discriminate.
  destruct (proj1 (mark_owned_failure_keeps_snapshot api 4 3 b j)
              (snd sr) (snd rr) [] "77" (inr false) (snd ar) Hs Hr Ha Hne)
    as (_ & Ho & Hadd).
  split; [exact Ho|exact Hadd].
Defined.

(** * Further properties *)

(** ** The matcher *)

(** X1: The matcher returns the key of the first entry of the snapshot, in
    iteration order, that the isbn test or the title and author test
    accepts, and [None] exactly when no entry is accepted; a returned id is
    always a key of the snapshot. *)
Theorem matcher_returns_first_hit_or_none (title : string) (authors : list string)
    (isbn : option string) (owned_books : owned_dict) :
  let hit := Matcher.entry_hit (Matcher.clean_title_of title) authors
               (Matcher.clean_isbn_of isbn) in
  match Matcher.is_book_already_owned title authors isbn owned_books with
  | Some k =>
      In k (map fst owned_books)
      /\ exists pre e post,
           owned_books = pre ++ (k, e) :: post /\ hit e = true
           /\ Forall (fun p => hit p.2 = false) pre
  | None => Forall (fun p => hit p.2 = false) owned_books
  end.
Proof.
  cbv zeta. unfold Matcher.is_book_already_owned.
  destruct (Matcher.owned_loop _ _ _ owned_books) as [k|] eqn:Hr.
  - destruct (owned_loop_some _ _ _ _ _ Hr) as (pre & e & post & -> & Hpre & He).
    split; [|exists pre, e, post; now repeat split].
    rewrite map_app. apply in_or_app. right. now left.
  - now apply owned_loop_none.
Qed.

Lemma replace_no_char (c : ascii) (s : string) : no_char c (Py.replace c "" s).
Proof.
  induction s as [|a r IH]; simpl; [exact I|].
  destruct (Ascii.eqb_spec a c); simpl; [exact IH|]. now split.
Qed.

Lemma replace_keeps_no_char (c d : ascii) (s : string) :
  no_char c s -> no_char c (Py.replace d "" s).
Proof.
  induction s as [|a r IH]; simpl; [trivial|]. intros [Ha Hr].
  destruct (Ascii.eqb a d); simpl; [now apply IH|]. split; [exact Ha|now apply IH].
Qed.

Lemma replace_absent (c : ascii) (s : string) : no_char c s -> Py.replace c "" s = s.
Proof.
  induction s as [|a r IH]; simpl; [reflexivity|]. intros [Ha Hr].
  destruct (Ascii.eqb_spec a c); [contradiction|]. now rewrite IH.
Qed.

(** Stripping hyphens and spaces twice is stripping them once. *)
Lemma clean_isbn_idempotent (s : string) :
  let c := Py.replace " " "" (Py.replace "-" "" s) in
  Py.replace " " "" (Py.replace "-" "" c) = c.
Proof.
  cbv zeta. rewrite (replace_absent "-").
  - apply replace_absent, replace_no_char.
  - apply replace_keeps_no_char, replace_no_char.
Qed.

Lemma owned_loop_isbn_ext (clean_title : string) (authors : list string)
    (c c' : option string) (items : owned_dict) :
  (forall e, Matcher.isbn_hit c e = Matcher.isbn_hit c' e) ->
  Matcher.owned_loop clean_title authors c items
  = Matcher.owned_loop clean_title authors c' items.
Proof.
  intros H. induction items as [|[k e] r IH]; simpl; [reflexivity|].
  unfold Matcher.entry_hit. now rewrite H, IH.
Qed.

(** X2: The matcher gives the same answer for an isbn and for that isbn with
    its hyphens and spaces taken out. *)
Theorem matcher_ignores_isbn_separators (title : string) (authors : list string)
    (isbn : string) (owned_books : owned_dict) :
  Matcher.is_book_already_owned title authors
    (Some (Py.replace " " "" (Py.replace "-" "" isbn))) owned_books
  = Matcher.is_book_already_owned title authors (Some isbn) owned_books.
Proof.
  unfold Matcher.is_book_already_owned. apply owned_loop_isbn_ext. intros e.
  unfold Matcher.clean_isbn_of. rewrite clean_isbn_idempotent.
  set (c := Py.replace " " "" (Py.replace "-" "" isbn)).
  destruct (Py.truthy isbn) eqn:Hi.
  - destruct (Py.truthy c) eqn:Hc; [reflexivity|]. simpl. now rewrite Hc.
  - destruct isbn; [|discriminate]. reflexivity.
Qed.

Lemma prefix_refl (s : string) : String.prefix s s = true.
Proof.
  induction s as [|a r IH]; simpl; [reflexivity|].
  destruct (ascii_dec a a); [exact IH|contradiction].
Qed.

Lemma str_in_refl (s : string) : Py.str_in s s = true.
Proof.
  destruct s as [|a r]; [reflexivity|].
  change (Py.str_in (String a r) (String a r))
    with (if String.prefix (String a r) (String a r) then true
          else Py.str_in (String a r) r).
  now rewrite prefix_refl.
Qed.

Lemma dict_set_In (d : owned_dict) (k : string) (v : owned_book) :
  In (k, v) (dict_set d k v).
Proof.
  induction d as [|[k' v'] r IH]; simpl; [now left|].
  destruct (String.eqb k' k); [now left|now right].
Qed.

(** X3: The entry that the run puts in the snapshot for a book it has marked
    owned is accepted by the matcher for that same book, whatever else the
    snapshot holds, provided the normalised title is not empty: the matcher
    then returns an id. *)
Theorem cached_book_is_recognised (d : owned_dict) (id : string)
    (b : SyncJob.book_entry) :
  Matcher.clean_title_of (SyncJob.entry_title b) ≠ "" ->
  Matcher.is_book_already_owned (SyncJob.entry_title b) (SyncJob.entry_authors b)
    (SyncJob.entry_isbn b) (dict_set d id (SyncJob.cache_entry id b)) ≠ None.
Proof.
  intros Ht Hnone. unfold Matcher.is_book_already_owned in Hnone.
  apply owned_loop_none in Hnone. rewrite List.Forall_forall in Hnone.
  specialize (Hnone _ (dict_set_In d id (SyncJob.cache_entry id b))). simpl in Hnone.
  apply truthy_ne in Ht. unfold Matcher.clean_title_of in *.
  unfold Matcher.entry_hit, Matcher.title_hit in Hnone. simpl in Hnone.
  rewrite Ht in Hnone. simpl in Hnone.
  unfold Matcher.titles_match in Hnone. rewrite String.eqb_refl in Hnone.
  simpl in Hnone.
  destruct (SyncJob.entry_authors b) as [|a r] eqn:Ha; simpl in Hnone.
  - rewrite orb_true_r in Hnone. discriminate.
  - rewrite str_in_refl in Hnone. simpl in Hnone.
    rewrite orb_true_r in Hnone. discriminate.
Qed.

Lemma cached_book_is_recognised_witness :
  Matcher.is_book_already_owned "Dune" ["Frank Herbert"] (Some "978-0-441-01359-3")
    (dict_set Scenario.dune_only "42"
       (SyncJob.cache_entry "42" (Scenario.queued 1 Scenario.dune))) ≠ None.
Proof.
  apply (cached_book_is_recognised Scenario.dune_only "42"
           (Scenario.queued 1 Scenario.dune)).
  vm_compute. discriminate.
Defined.

(** ** The throttle and the request *)

Lemma later_eq (t d : Q) : (HardcoverAPI.later t d == t + d)%Q.
Proof. unfold HardcoverAPI.later. apply Qred_correct. Qed.

(** What [_throttle] leaves alone, and where it leaves the clock. *)
Lemma throttle_frame {W} (s : HardcoverAPI.state W) :
  let r := HardcoverAPI._throttle s in
  let min_delay := (60 / inject_Z (HardcoverAPI._requests_per_minute s))%Q in
  fst r = inr tt
  /\ HardcoverAPI._last_request (snd r) = HardcoverAPI._last_request s
  /\ HardcoverAPI._requests_per_minute (snd r) = HardcoverAPI._requests_per_minute s
  /\ HardcoverAPI.remote (snd r) = HardcoverAPI.remote s
  /\ HardcoverAPI.sent (snd r) = HardcoverAPI.sent s
  /\ (min_delay <= HardcoverAPI.clock (snd r) - HardcoverAPI._last_request s)%Q
  /\ (HardcoverAPI.clock s <= HardcoverAPI.clock (snd r))%Q
  /\ ((min_delay <= HardcoverAPI.clock s - HardcoverAPI._last_request s)%Q ->
      HardcoverAPI.clock (snd r) = HardcoverAPI.clock s).
Proof.
  cbv zeta. unfold HardcoverAPI._throttle, HardcoverAPI.sleep. unfold_m. simpl.
  destruct (Qlt_le_dec _ _) as [Hlt|Hle]; simpl.
  - repeat split.
    + rewrite later_eq. lra.
    + rewrite later_eq. lra.
    + intros H. lra.
  - repeat split; [exact Hle|lra].
Qed.

(** X4: [_throttle] never raises and touches only the clock. After it, at least
    [60 / _requests_per_minute] seconds have passed since [_last_request];
    the clock does not go back, and it is left alone when that much time
    had passed already. *)
Theorem throttle_waits_min_delay {W} (s : HardcoverAPI.state W) :
  let r := HardcoverAPI._throttle s in
  let min_delay := (60 / inject_Z (HardcoverAPI._requests_per_minute s))%Q in
  fst r = inr tt
  /\ HardcoverAPI._last_request (snd r) = HardcoverAPI._last_request s
  /\ HardcoverAPI._requests_per_minute (snd r) = HardcoverAPI._requests_per_minute s
  /\ HardcoverAPI.remote (snd r) = HardcoverAPI.remote s
  /\ HardcoverAPI.sent (snd r) = HardcoverAPI.sent s
  /\ (min_delay <= HardcoverAPI.clock (snd r) - HardcoverAPI._last_request s)%Q
  /\ (HardcoverAPI.clock s <= HardcoverAPI.clock (snd r))%Q
  /\ ((min_delay <= HardcoverAPI.clock s - HardcoverAPI._last_request s)%Q ->
      HardcoverAPI.clock (snd r) = HardcoverAPI.clock s).
Proof.
  cbv zeta. unfold HardcoverAPI._throttle, HardcoverAPI.sleep. unfold_m. simpl.
  destruct (Qlt_le_dec _ _) as [Hlt|Hle]; simpl.
  - repeat split.
    + rewrite later_eq. lra.
    + rewrite later_eq. lra.
    + intros H. lra.
  - repeat split; [exact Hle|lra].
Qed.

Lemma throttle_waits_min_delay_witness :
  HardcoverAPI.clock (snd (HardcoverAPI._throttle Scenario.client))
  = HardcoverAPI.clock Scenario.client.
Proof.
  apply (proj2 (proj2 (proj2 (proj2 (proj2 (proj2 (proj2
           (throttle_waits_min_delay Scenario.client)))))))).
  vm_compute. discriminate.
Defined.

(** The state after one call of [run_query], and what the call gives. *)
Lemma run_query_frame {W} (tr : transport W) (q : query)
    (s : HardcoverAPI.state W) :
  let s1 := snd (HardcoverAPI._throttle s) in
  let rep := fst (tr (HardcoverAPI.remote s) q) in
  let r := HardcoverAPI.run_query tr q s in
  HardcoverAPI.sent (snd r) = HardcoverAPI.clock s1 :: HardcoverAPI.sent s
  /\ HardcoverAPI.remote (snd r) = snd (tr (HardcoverAPI.remote s) q)
  /\ HardcoverAPI.clock (snd r)
     = HardcoverAPI.later (HardcoverAPI.clock s1) (latency rep)
  /\ HardcoverAPI._last_request (snd r)
     = (if answered (outcome rep) then HardcoverAPI.clock (snd r)
        else HardcoverAPI._last_request s)
  /\ match outcome rep with
     | Body None d => fst r = inr (default empty_data d)
     | Body (Some error_msg) _ =>
         fst r = inl (Exception ("GraphQL error: " +:+ error_msg))
     | JSONDecodeError e => fst r = inl (Exception ("Invalid JSON response: " +:+ e))
     | HTTPError code reason =>
         fst r = inl (Exception (HardcoverAPI.http_error_msg code reason))
     | URLError reason => fst r = inl (Exception ("Network error: " +:+ reason))
     | OtherError _ e => fst r = inl (Exception ("Request failed: " +:+ e))
     | MalformedBody error => fst r = inl (Exception error)
     end.
Proof.
  cbv zeta.
  destruct (throttle_frame s) as (Ht & Hl & _ & Hr & Hs & _).
  unfold HardcoverAPI.run_query, HardcoverAPI.urlopen, HardcoverAPI.stamp. unfold_m.
  destruct (HardcoverAPI._throttle s) as [[e|[]] s1]; simpl in *; [discriminate|].
  rewrite Hr. destruct (tr (HardcoverAPI.remote s) q) as [rep w]. simpl.
  destruct (outcome rep) as [code reason|reason|e|[|] e|e|[m|] d]; simpl;
    rewrite ?Hs, ?Hl; repeat split.
Qed.

(** X5: One call of [run_query] sends exactly one request, at the time the
    throttle releases it, and the clock then moves on by the latency of the
    reply: there is no retry. It returns only for a body without ['errors'],
    with the ['data'] of the body or an empty dict, and raises in every
    other case: with the message of the [except] clause that caught the
    failure, or, for a body of the wrong shape, with the exception of lines
    97-105 as it is. [_last_request] is set to the time of the response
    whenever [urlopen] returned one, also when the body then cannot be read
    or decoded or is of the wrong shape, and is left as it was after an
    HTTP error, a network error or another failure of [urlopen] itself. *)
Theorem run_query_one_request {W} (tr : transport W) (q : query)
    (s : HardcoverAPI.state W) :
  let s1 := snd (HardcoverAPI._throttle s) in
  let rep := fst (tr (HardcoverAPI.remote s) q) in
  let r := HardcoverAPI.run_query tr q s in
  HardcoverAPI.sent (snd r) = HardcoverAPI.clock s1 :: HardcoverAPI.sent s
  /\ HardcoverAPI.remote (snd r) = snd (tr (HardcoverAPI.remote s) q)
  /\ HardcoverAPI.clock (snd r)
     = HardcoverAPI.later (HardcoverAPI.clock s1) (latency rep)
  /\ HardcoverAPI._last_request (snd r)
     = (if answered (outcome rep) then HardcoverAPI.clock (snd r)
        else HardcoverAPI._last_request s)
  /\ match outcome rep with
     | Body None d => fst r = inr (default empty_data d)
     | Body (Some error_msg) _ =>
         fst r = inl (Exception ("GraphQL error: " +:+ error_msg))
     | JSONDecodeError e => fst r = inl (Exception ("Invalid JSON response: " +:+ e))
     | HTTPError code reason =>
         fst r = inl (Exception (HardcoverAPI.http_error_msg code reason))
     | URLError reason => fst r = inl (Exception ("Network error: " +:+ reason))
     | OtherError _ e => fst r = inl (Exception ("Request failed: " +:+ e))
     | MalformedBody error => fst r = inl (Exception error)
     end.
Proof.
  cbv zeta.
  destruct (throttle_frame s) as (Ht & Hl & _ & Hr & Hs & _).
  unfold HardcoverAPI.run_query, HardcoverAPI.urlopen, HardcoverAPI.stamp. unfold_m.
  destruct (HardcoverAPI._throttle s) as [[e|[]] s1]; simpl in *; [discriminate|].
  rewrite Hr. destruct (tr (HardcoverAPI.remote s) q) as [rep w]. simpl.
  destruct (outcome rep) as [code reason|reason|e|[|] e|e|[m|] d]; simpl;
    rewrite ?Hs, ?Hl; repeat split.
Qed.

(** X6: Two calls in a row: when the first one got a response, the second
    request goes out at least [60 / _requests_per_minute] seconds after that
    response, hence at least that long after the first request. *)
Theorem answered_call_spaces_the_next {W} (tr : transport W) (q1 q2 : query)
    (s : HardcoverAPI.state W) :
  let rep := fst (tr (HardcoverAPI.remote s) q1) in
  let s1 := snd (HardcoverAPI.run_query tr q1 s) in
  let s2 := snd (HardcoverAPI.run_query tr q2 s1) in
  answered (outcome rep) = true -> (0 <= latency rep)%Q ->
  exists t1 t2,
    HardcoverAPI.sent s2 = t2 :: t1 :: HardcoverAPI.sent s
    /\ (60 / inject_Z (HardcoverAPI._requests_per_minute s) <= t2 - t1)%Q.
Proof.
  cbv zeta. intros Hans Hlat.
  destruct (run_query_frame tr q1 s) as (Hs1 & _ & Hc1 & Hl1 & _).
  cbv zeta in *. rewrite Hans in Hl1.
  set (s1 := snd (HardcoverAPI.run_query tr q1 s)) in *.
  destruct (run_query_frame tr q2 s1) as (Hs2 & _).
  cbv zeta in Hs2.
  destruct (throttle_frame s1) as (_ & _ & _ & _ & _ & Hw & _).
  cbv zeta in Hw.
  assert (Hrpm : HardcoverAPI._requests_per_minute s1
                 = HardcoverAPI._requests_per_minute s).
  { unfold s1, HardcoverAPI.run_query, HardcoverAPI.urlopen, HardcoverAPI.stamp,
      HardcoverAPI._throttle, HardcoverAPI.sleep. unfold_m. simpl.
    destruct (Qlt_le_dec _ _); simpl;
      destruct (tr (HardcoverAPI.remote s) q1) as [rep w]; simpl;
      destruct (outcome rep) as [code reason|reason|e|[|] e|e|[m|] d]; reflexivity. }
  rewrite Hrpm in Hw.
  eexists _, _. split; [rewrite Hs2, Hs1; reflexivity|].
  rewrite Hl1, Hc1 in Hw. rewrite later_eq in Hw. lra.
Qed.

Lemma answered_call_spaces_the_next_witness :
  exists t1 t2,
    fst (Scenario.two_calls 5) = [t2; t1] /\ (60 / inject_Z 60 <= t2 - t1)%Q.
Proof.
  exact (answered_call_spaces_the_next (Scenario.answers empty_data)
           TestConnection TestConnection (HardcoverAPI.__init__ 5 100 tt)
           eq_refl ltac:(discriminate)).
Defined.

(** X7: Two calls in a row: when [urlopen] itself failed in the first one (an
    HTTP error, a network error, or another exception raised before it
    returned, so that line 76 did not run), the second request is not held
    back: it goes out as soon as the first call has failed. *)
Theorem failed_call_does_not_space_the_next {W} (tr : transport W) (q1 q2 : query)
    (s : HardcoverAPI.state W) :
  let rep := fst (tr (HardcoverAPI.remote s) q1) in
  let s1 := snd (HardcoverAPI.run_query tr q1 s) in
  let s2 := snd (HardcoverAPI.run_query tr q2 s1) in
  answered (outcome rep) = false -> (0 <= latency rep)%Q ->
  exists t1,
    HardcoverAPI.sent s2 = HardcoverAPI.clock s1 :: t1 :: HardcoverAPI.sent s
    /\ (HardcoverAPI.clock s1 == t1 + latency rep)%Q.
Proof.
  cbv zeta. intros Hans Hlat.
  destruct (run_query_frame tr q1 s) as (Hs1 & _ & Hc1 & Hl1 & _).
  cbv zeta in *. rewrite Hans in Hl1.
  set (s1 := snd (HardcoverAPI.run_query tr q1 s)) in *.
  destruct (run_query_frame tr q2 s1) as (Hs2 & _).
  cbv zeta in Hs2.
  destruct (throttle_frame s) as (_ & _ & _ & _ & _ & Hw & _).
  cbv zeta in Hw.
  assert (Hrpm : HardcoverAPI._requests_per_minute s1
                 = HardcoverAPI._requests_per_minute s).
  { unfold s1, HardcoverAPI.run_query, HardcoverAPI.urlopen, HardcoverAPI.stamp,
      HardcoverAPI._throttle, HardcoverAPI.sleep. unfold_m. simpl.
    destruct (Qlt_le_dec _ _); simpl;
      destruct (tr (HardcoverAPI.remote s) q1) as [rep w]; simpl;
      destruct (outcome rep) as [code reason|reason|e|[|] e|e|[m|] d]; reflexivity. }
  destruct (throttle_frame s1) as (_ & _ & _ & _ & _ & _ & _ & Hkeep).
  cbv zeta in Hkeep.
  assert (Hc : HardcoverAPI.clock (snd (HardcoverAPI._throttle s1))
               = HardcoverAPI.clock s1).
  { apply Hkeep. rewrite Hrpm, Hl1, Hc1, later_eq. lra. }
  eexists. split; [rewrite Hs2, Hs1, Hc; reflexivity|].
  rewrite Hc1. apply later_eq.
Qed.

Lemma failed_call_does_not_space_the_next_witness :
  let s := HardcoverAPI.__init__ 5 100 tt in
  let s1 := snd (HardcoverAPI.run_query Scenario.unreachable TestConnection s) in
  let s2 := snd (HardcoverAPI.run_query Scenario.unreachable TestConnection s1) in
  exists t1,
    HardcoverAPI.sent s2 = HardcoverAPI.clock s1 :: t1 :: HardcoverAPI.sent s
    /\ (HardcoverAPI.clock s1 == t1 + (1 # 50))%Q.
Proof.
  exact (failed_call_does_not_space_the_next Scenario.unreachable
           TestConnection TestConnection (HardcoverAPI.__init__ 5 100 tt)
           eq_refl ltac:(discriminate)).
Defined.

(** ** Remote ids as text *)

Lemma pretty_N_char_code (m : N) :
  (m < 10)%N -> Z.of_nat (nat_of_ascii (pretty_N_char m)) = 48 + Z.of_N m.
Proof.
  intros Hm.
  assert (m = 0 \/ m = 1 \/ m = 2 \/ m = 3 \/ m = 4 \/ m = 5 \/ m = 6 \/ m = 7
          \/ m = 8 \/ m = 9)%N as H by lia.
  repeat (destruct H as [->|H]; [reflexivity|]). now subst.
Qed.

Lemma digits_pretty_N_go (x : N) : forall s : string,
  HardcoverAPI.digits (pretty_N_go x s) 0 = HardcoverAPI.digits s (Z.of_N x).
Proof.
  induction (N.lt_wf_0 x) as [x _ IH]. intros s.
  destruct (N.eq_dec x 0) as [->|Hx]; [reflexivity|].
  rewrite pretty_N_go_step by lia.
  rewrite IH by (apply N.div_lt; lia).
  pose proof (N.mod_lt x 10 ltac:(lia)) as Hm.
  cbn [HardcoverAPI.digits].
  rewrite (pretty_N_char_code _ Hm).
  pose proof (N.div_mod x 10 ltac:(lia)) as Hdm.
  apply (f_equal Z.of_N) in Hdm. rewrite N2Z.inj_add, N2Z.inj_mul in Hdm.
  change (Z.of_N 10) with 10 in Hdm.
  apply N2Z.inj_lt in Hm. change (Z.of_N 10) with 10 in Hm.
  pose proof (N2Z.is_nonneg (x mod 10)%N) as Hnn.
  set (a := Z.of_N (x / 10)%N) in *. set (b := Z.of_N (x mod 10)%N) in *.
  assert (Hd : (48 <=? 48 + b) && (48 + b <=? 57) = true).
  { apply andb_true_intro. split; apply Z.leb_le; lia. }
  rewrite Hd. f_equal. lia.
Qed.

Lemma all_digits_pretty_N_go (x : N) : forall s : string,
  all_digits s -> all_digits (pretty_N_go x s).
Proof.
  induction (N.lt_wf_0 x) as [x _ IH]. intros s Hs.
  destruct (N.eq_dec x 0) as [->|Hx]; [exact Hs|].
  rewrite pretty_N_go_step by lia.
  apply IH; [apply N.div_lt; lia|]. simpl. split; [|exact Hs].
  pose proof (N.mod_lt x 10 ltac:(lia)) as Hm.
  pose proof (pretty_N_char_code _ Hm) as Hc.
  apply N2Z.inj_lt in Hm. change (Z.of_N 10) with 10 in Hm.
  pose proof (N2Z.is_nonneg (x mod 10)%N). lia.
Qed.

Lemma pretty_N_go_nonempty (x : N) : forall s : string,
  (0 < x)%N \/ s ≠ "" -> pretty_N_go x s ≠ "".
Proof.
  induction (N.lt_wf_0 x) as [x _ IH]. intros s H.
  destruct (N.eq_dec x 0) as [->|Hx].
  - destruct H as [H|H]; [lia|exact H].
  - rewrite pretty_N_go_step by lia.
    apply IH; [apply N.div_lt; lia|]. right. discriminate.
Qed.

Lemma digit_not_space (a : ascii) :
  (48 <= nat_of_ascii a <= 57)%nat -> Py.isspace a = false.
Proof.
  intros H. unfold Py.isspace.
  apply orb_false_intro; apply andb_false_iff.
  - right. apply Nat.leb_gt. lia.
  - right. apply Nat.leb_gt. lia.
Qed.

Lemma rstrip_all_digits (s : string) : all_digits s -> Py.rstrip s = s.
Proof.
  induction s as [|a r IH]; simpl; [reflexivity|]. intros [Ha Hr].
  rewrite (IH Hr). destruct r; [|reflexivity].
  now rewrite digit_not_space.
Qed.

Lemma strip_all_digits (s : string) : all_digits s -> Py.strip s = s.
Proof.
  intros Hs. unfold Py.strip.
  assert (Hl : Py.lstrip s = s).
  { destruct s as [|a r]; [reflexivity|]. simpl. destruct Hs as [Ha _].
    now rewrite digit_not_space. }
  rewrite Hl. now apply rstrip_all_digits.
Qed.

Lemma int_all_digits (s : string) (n : Z) :
  all_digits s -> s ≠ "" -> HardcoverAPI.digits s 0 = Some n ->
  HardcoverAPI.int s = inr n /\ HardcoverAPI.int (String "-" s) = inr (- n).
Proof.
  intros Hs Hne Hd. split.
  - unfold HardcoverAPI.int. rewrite (strip_all_digits s Hs).
    destruct s as [|a r]; [contradiction|]. destruct Hs as [Ha Hr].
    assert (Hm : Ascii.eqb a "-" = false).
    { apply Ascii.eqb_neq. intros ->.
      change (nat_of_ascii "-") with 45%nat in Ha. lia. }
    assert (Hp : Ascii.eqb a "+" = false).
    { apply Ascii.eqb_neq. intros ->.
      change (nat_of_ascii "+") with 43%nat in Ha. lia. }
    rewrite Hm, Hp. now rewrite Hd.
  - unfold HardcoverAPI.int, Py.strip.
    change (Py.lstrip (String "-" s)) with (String "-" s).
    assert (Hr : Py.rstrip (String "-" s) = String "-" s).
    { simpl. rewrite (rstrip_all_digits s Hs). destruct s; [contradiction|reflexivity]. }
    rewrite Hr. simpl. destruct s as [|a r]; [contradiction|]. now rewrite Hd.
Qed.

(** [int(str(n)) == n]: the text of a numeric remote id always reads back
    as that number, and is never empty. *)
Lemma int_str_round_trip (n : Z) :
  HardcoverAPI.int (Py.str_int n) = inr n /\ Py.truthy (Py.str_int n) = true.
Proof.
  unfold Py.str_int, pretty, pretty_Z.
  destruct n as [|p|p].
  - split; reflexivity.
  - unfold pretty, pretty_positive, pretty, pretty_N.
    destruct (decide (N.pos p = 0%N)) as [H|_]; [discriminate|].
    assert (Hne : pretty_N_go (N.pos p) "" ≠ "") by (apply pretty_N_go_nonempty; lia).
    split; [|now apply truthy_ne].
    apply (int_all_digits _ (Z.pos p)); [now apply all_digits_pretty_N_go|exact Hne|].
    now rewrite digits_pretty_N_go.
  - unfold pretty, pretty_positive, pretty, pretty_N.
    destruct (decide (N.pos p = 0%N)) as [H|_]; [discriminate|].
    assert (Hne : pretty_N_go (N.pos p) "" ≠ "") by (apply pretty_N_go_nonempty; lia).
    split; [|reflexivity].
    change (Z.neg p) with (- Z.pos p).
    apply (int_all_digits _ (Z.pos p)); [now apply all_digits_pretty_N_go|exact Hne|].
    now rewrite digits_pretty_N_go.
Qed.

(** The text made from the ['id'] of a search result is never empty. *)
Lemma str_id_truthy (f : field Z) :
  f ≠ Absent -> Py.truthy (HardcoverAPI.str_id f) = true.
Proof.
  destruct f as [| |n]; [contradiction|reflexivity|]. intros _.
  apply int_str_round_trip.
Qed.

(** ** [add_book_to_owned] and [create_book_on_hardcover] *)

(** X8: [add_book_to_owned] converts the id before the [try]: for an id that is
    not a number the [ValueError] leaves the method and no request is sent.
    For a numeric id the method does not raise: it sends one
    [AddBookToOwned] request and returns [True] exactly when the request
    returned a non-null ['insert_user_books_one']. *)
Theorem add_book_to_owned_outcomes {W} (tr : transport W) (s : HardcoverAPI.state W) :
  (forall (book_id : string) (e : exn),
     HardcoverAPI.int book_id = inl e ->
     HardcoverAPI.add_book_to_owned tr book_id s = (inl e, s))
  /\ (forall n : Z,
     let call := HardcoverAPI.run_query tr (AddBookToOwned n) s in
     HardcoverAPI.add_book_to_owned tr (Py.str_int n) s
     = (inr match fst call with
            | inr d => match data_insert_user_books_one d with
                       | Val _ => true
                       | _ => false
                       end
            | inl _ => false
            end, snd call)).
Proof.
  split.
  - intros book_id e He. unfold HardcoverAPI.add_book_to_owned. unfold_m.
    now rewrite He.
  - intros n. cbv zeta. unfold HardcoverAPI.add_book_to_owned. unfold_m.
    rewrite (proj1 (int_str_round_trip n)).
    destruct (HardcoverAPI.run_query tr (AddBookToOwned n) s) as [[e|d] s1];
      reflexivity.
Qed.

Lemma add_book_to_owned_outcomes_witness :
  exists e, HardcoverAPI.add_book_to_owned Scenario.library "None" Scenario.client
            = (inl e, Scenario.client).
Proof.
  eexists.
  exact (proj1 (add_book_to_owned_outcomes Scenario.library Scenario.client)
           "None" _ eq_refl).
Defined.

(** X9: [create_book_on_hardcover] does not raise. It returns an id only when
    the request returned a non-empty ['insert_books_one'] that has an ['id'],
    and then the id is not empty; when the request raises it returns
    [None]. *)
Theorem create_book_never_raises {W} (tr : transport W) (title : string)
    (authors : list string) (metadata : metadata) (s : HardcoverAPI.state W) :
  let q := CreateBook
             {| var_title := title;
                var_subtitle := md_subtitle metadata;
                var_description := md_comments metadata;
                var_release_date := md_pubdate metadata;
                var_isbn_10 := fst (HardcoverAPI.metadata_isbns metadata);
                var_isbn_13 := snd (HardcoverAPI.metadata_isbns metadata);
                var_publisher := md_publisher metadata;
                var_pages := md_pages metadata |} in
  let call := HardcoverAPI.run_query tr q s in
  let r := HardcoverAPI.create_book_on_hardcover tr title authors metadata s in
  exists o : option string,
    fst r = inr o /\ snd r = snd call
    /\ (forall e, fst call = inl e -> o = None)
    /\ (forall id, o = Some id ->
        Py.truthy id = true
        /\ exists d b,
             fst call = inr d /\ data_insert_books_one d = Val b
             /\ book_id b ≠ Absent /\ id = HardcoverAPI.str_id (book_id b)).
Proof.
  cbv zeta. unfold HardcoverAPI.create_book_on_hardcover. unfold_m.
  set (q := CreateBook _).
  destruct (HardcoverAPI.run_query tr q s) as [[e|d] s1] eqn:Hq; simpl.
  { exists None. repeat split; discriminate. }
  destruct (data_insert_books_one d) as [| |b] eqn:Hb; simpl;
    try (exists None; repeat split; discriminate).
  destruct (HardcoverAPI.book_truthy b); simpl;
    [|exists None; repeat split; discriminate].
  destruct (book_id b) as [| |n] eqn:Hid; simpl.
  - exists None. repeat split; discriminate.
  - exists (Some "None"). split; [reflexivity|]. split; [reflexivity|].
    split; [discriminate|]. intros id [= <-]. split; [reflexivity|].
    exists d, b. rewrite Hid. repeat split; [exact Hb|discriminate].
  - exists (Some (Py.str_int n)). split; [reflexivity|]. split; [reflexivity|].
    split; [discriminate|]. intros id [= <-]. split; [apply int_str_round_trip|].
    exists d, b. rewrite Hid. repeat split; [exact Hb|discriminate].
Qed.

Lemma create_book_never_raises_witness :
  fst (HardcoverAPI.create_book_on_hardcover Scenario.unreachable "Solaris"
         ["Stanislaw Lem"] Scenario.solaris Scenario.client) = inr None.
Proof.
  destruct (create_book_never_raises Scenario.unreachable "Solaris" ["Stanislaw Lem"]
              Scenario.solaris Scenario.client) as (o & Ho & _ & Hnone & _).
  rewrite Ho. f_equal. exact (Hnone _ eq_refl).
Defined.

(** X10: The isbn search and the creation read an isbn the same way: with its
    hyphens and spaces taken out it goes into the 10-digit variable when it
    has 10 characters, into the 13-digit variable when it has 13, and into
    neither otherwise; never into both. *)
Theorem search_and_create_agree_on_isbn (metadata : metadata) (isbn : string) :
  md_identifiers metadata !! "isbn" = Some isbn -> isbn ≠ "" ->
  let clean_isbn := Py.replace " " "" (Py.replace "-" "" isbn) in
  let v := HardcoverAPI.metadata_isbns metadata in
  HardcoverAPI.isbn_query isbn = SearchBooksByISBN (fst v) (snd v)
  /\ (fst v = None \/ snd v = None)
  /\ (fst v = Some clean_isbn <-> String.length clean_isbn = 10%nat)
  /\ (snd v = Some clean_isbn <-> String.length clean_isbn = 13%nat).
Proof.
  intros Hi Hne. cbv zeta. unfold HardcoverAPI.isbn_query, HardcoverAPI.metadata_isbns.
  rewrite Hi. apply truthy_ne in Hne. rewrite Hne.
  set (c := Py.replace " " "" (Py.replace "-" "" isbn)).
  destruct (Nat.eqb_spec (String.length c) 10) as [H10|H10];
    destruct (Nat.eqb_spec (String.length c) 13) as [H13|H13]; simpl;
    try lia; repeat split; auto; try discriminate; try (intros; lia).
Qed.

Lemma search_and_create_agree_on_isbn_witness :
  HardcoverAPI.isbn_query "978-0-441-01359-3"
  = SearchBooksByISBN None (Some "9780441013593").
Proof.
  exact (proj1 (search_and_create_agree_on_isbn Scenario.dune "978-0-441-01359-3"
                  eq_refl ltac:(discriminate))).
Defined.

(** ** The snapshot built from the remote *)

Lemma dict_set_keys (d : owned_dict) (k : string) (v : owned_book) :
  map fst (dict_set d k v)
  = if bool_decide (k ∈ map fst d) then map fst d else map fst d ++ [k].
Proof.
  induction d as [|[k' v'] r IH].
  - rewrite bool_decide_eq_false_2 by apply not_elem_of_nil. reflexivity.
  - cbn [dict_set].
    destruct (String.eqb_spec k' k) as [->|Hne]; cbn [map fst].
    + rewrite bool_decide_eq_true_2 by apply list_elem_of_here. reflexivity.
    + rewrite IH. destruct (bool_decide (k ∈ map fst r)) eqn:Hin.
      * apply bool_decide_eq_true in Hin.
        rewrite bool_decide_eq_true_2 by now apply list_elem_of_further.
        reflexivity.
      * apply bool_decide_eq_false in Hin.
        rewrite bool_decide_eq_false_2; [reflexivity|].
        intros H. apply elem_of_cons in H as [->|H]; [now apply Hne|now apply Hin].
Qed.

Lemma dict_set_Forall (P : string * owned_book -> Prop) (d : owned_dict) (k : string)
    (v : owned_book) :
  Forall P d -> P (k, v) -> Forall P (dict_set d k v).
Proof.
  intros Hd Hp. induction Hd as [|[k' v'] r Hx Hr IH]; simpl.
  - repeat constructor. exact Hp.
  - destruct (String.eqb k' k); constructor; assumption.
Qed.

(** An assignment in the snapshot keeps it well-formed and loses no key. *)
Lemma dict_set_wf (d : owned_dict) (k : string) (v : owned_book) :
  snapshot_wf d -> k ≠ "" -> info_id v = k ->
  snapshot_wf (dict_set d k v)
  /\ (forall k', In k' (map fst d) -> In k' (map fst (dict_set d k v))).
Proof.
  intros [Hnd Hall] Hk Hid. split; [split|].
  - rewrite dict_set_keys. destruct (bool_decide (k ∈ map fst d)) eqn:Hin.
    + exact Hnd.
    + apply bool_decide_eq_false in Hin. apply NoDup_app. split; [exact Hnd|].
      split; [|apply NoDup_singleton].
      intros x Hx Hx'. apply list_elem_of_singleton in Hx'. now subst.
  - apply dict_set_Forall; [exact Hall|]. now split.
  - intros k' Hk'. rewrite dict_set_keys.
    destruct (bool_decide _); [exact Hk'|]. apply in_or_app. now left.
Qed.

Lemma add_isbn_elem (f : field string) (isbns : gset string) (x : string) :
  x ∈ HardcoverAPI.add_isbn f isbns <-> x ∈ isbns \/ (x ≠ "" /\ f = Val x).
Proof.
  unfold HardcoverAPI.add_isbn. destruct f as [| |s].
  - split; [now left|]. intros [H|[_ H]]; [exact H|discriminate].
  - split; [now left|]. intros [H|[_ H]]; [exact H|discriminate].
  - destruct (Py.truthy s) eqn:Hs.
    + apply truthy_ne in Hs. rewrite elem_of_union, elem_of_singleton.
      split.
      * intros [H| ->]; [now left|right; now split].
      * intros [H|[_ Heq]]; [now left|]. injection Heq as ->. now right.
    + assert (s = "") as -> by (destruct s; [reflexivity|discriminate]).
      split; [now left|]. intros [H|[Hx Heq]]; [exact H|].
      injection Heq as <-. contradiction.
Qed.

Lemma edition_isbns_no_empty (editions : list edition_json) :
  "" ∉ HardcoverAPI.edition_isbns editions.
Proof.
  unfold HardcoverAPI.edition_isbns.
  enough (H : forall acc : gset string,
             "" ∉ acc ->
             "" ∉ foldl (fun isbns edition =>
                    HardcoverAPI.add_isbn (isbn_13 edition)
                      (HardcoverAPI.add_isbn (isbn_10 edition) isbns)) acc editions).
  { apply H. set_solver. }
  induction editions as [|ed r IH]; intros acc Hacc; simpl; [exact Hacc|].
  apply IH. rewrite !add_isbn_elem. intros [[H|[H _]]|[H _]]; [now apply Hacc| |];
    now apply H.
Qed.

(** X11: The isbn set of an entry holds exactly the non-empty [isbn_10] and
    [isbn_13] texts of the editions of the book. *)
Theorem edition_isbns_elem (editions : list edition_json) (x : string) :
  x ∈ HardcoverAPI.edition_isbns editions
  <-> x ≠ "" /\ exists edition, In edition editions
                 /\ (isbn_10 edition = Val x \/ isbn_13 edition = Val x).
Proof.
  unfold HardcoverAPI.edition_isbns.
  enough (H : forall acc : gset string,
             x ∈ foldl (fun isbns edition =>
                   HardcoverAPI.add_isbn (isbn_13 edition)
                     (HardcoverAPI.add_isbn (isbn_10 edition) isbns)) acc editions
             <-> x ∈ acc
                 \/ (x ≠ "" /\ exists edition, In edition editions
                       /\ (isbn_10 edition = Val x \/ isbn_13 edition = Val x))).
  { rewrite H. split; [intros [Hx|Hx]; [set_solver|exact Hx]|now right]. }
  induction editions as [|ed r IH]; intros acc; simpl.
  - split; [now left|]. intros [H|(_ & ed & [] & _)]. exact H.
  - rewrite IH, !add_isbn_elem. split.
    + intros [[[H|[Hx H]]|[Hx H]]|(Hx & ed' & Hin & H)].
      * now left.
      * right. split; [exact Hx|]. exists ed. split; [now left|now left].
      * right. split; [exact Hx|]. exists ed. split; [now left|now right].
      * right. split; [exact Hx|]. exists ed'. split; [now right|exact H].
    + intros [H|(Hx & ed' & [<-|Hin] & H)].
      * left. left. now left.
      * destruct H as [H|H]; left; [left; right|right]; now split.
      * right. split; [exact Hx|]. now exists ed'.
Qed.

Lemma contribution_authors_nonempty (contribs : list contribution_json)
    (authors : list string) :
  HardcoverAPI.contribution_authors contribs = inr authors ->
  Forall (fun a => a ≠ "") authors.
Proof.
  revert authors. induction contribs as [|c r IH]; simpl; intros authors.
  - intros [= <-]. constructor.
  - destruct (contribution_author c) as [| |a]; [apply IH|discriminate|].
    destruct (HardcoverAPI.contribution_authors r) as [e|l]; [discriminate|].
    specialize (IH l eq_refl).
    destruct (author_name a) as [| |n]; try (intros [= <-]; exact IH).
    destruct (Py.truthy n) eqn:Hn; intros [= <-]; [|exact IH].
    constructor; [now apply truthy_ne|exact IH].
Qed.

Lemma owned_entry_wf (d d' : owned_dict) (row : user_book_json) :
  HardcoverAPI.owned_entry d row = inr d' ->
  snapshot_wf d -> Forall (fun p => fetched_entry p.2) d ->
  snapshot_wf d' /\ Forall (fun p => fetched_entry p.2) d'.
Proof.
  unfold HardcoverAPI.owned_entry. intros H Hwf Hf.
  set (b := match user_book_book row with Val b => b | _ => empty_book end) in H.
  assert (H' : (if Py.truthy (HardcoverAPI.str_id (book_id b)) then
                  match HardcoverAPI.rows (book_editions b) with
                  | inl e => inl e
                  | inr editions =>
                      match HardcoverAPI.rows (book_contributions b) with
                      | inl e => inl e
                      | inr contribs =>
                          match HardcoverAPI.contribution_authors contribs with
                          | inl e => inl e
                          | inr authors =>
                              match book_title b with
                              | Null => inl HardcoverAPI.AttributeError_lower
                              | ft =>
                                  inr (dict_set d (HardcoverAPI.str_id (book_id b))
                                         {| info_id := HardcoverAPI.str_id (book_id b);
                                            info_title :=
                                              Py.strip (Py.lower
                                                match ft with Val t => t | _ => "" end);
                                            info_authors := authors;
                                            info_isbns :=
                                              HardcoverAPI.edition_isbns editions;
                                            info_slug :=
                                              match book_slug b with
                                              | Val g => Some g
                                              | Absent => Some ""
                                              | Null => None
                                              end |})
                              end
                          end
                      end
                  end
                else inr d) = inr d').
  { destruct (user_book_book row); [exact H|discriminate|exact H]. }
  clear H. destruct (Py.truthy _) eqn:Hid; [|injection H' as <-; now split].
  destruct (HardcoverAPI.rows (book_editions b)) as [e|editions]; [discriminate|].
  destruct (HardcoverAPI.rows (book_contributions b)) as [e|contribs]; [discriminate|].
  destruct (HardcoverAPI.contribution_authors contribs) as [e|authors] eqn:Ha;
    [discriminate|].
  apply truthy_ne in Hid.
  pose proof (edition_isbns_no_empty editions) as Hisbn.
  pose proof (contribution_authors_nonempty _ _ Ha) as Hauth.
  destruct (book_title b) as [| |t]; [|discriminate|]; injection H' as <-.
  - split; [now apply dict_set_wf|].
    apply dict_set_Forall; [exact Hf|]. simpl. split; [now exists ""|now split].
  - split; [now apply dict_set_wf|].
    apply dict_set_Forall; [exact Hf|]. simpl. split; [now exists t|now split].
Qed.

Lemma owned_entries_wf (rows : list user_book_json) : forall d d' : owned_dict,
  HardcoverAPI.owned_entries d rows = inr d' ->
  snapshot_wf d -> Forall (fun p => fetched_entry p.2) d ->
  snapshot_wf d' /\ Forall (fun p => fetched_entry p.2) d'.
Proof.
  induction rows as [|row r IH]; simpl; intros d d' H Hwf Hf.
  - injection H as <-. now split.
  - destruct (HardcoverAPI.owned_entry d row) as [e|d1] eqn:H1; [discriminate|].
    destruct (owned_entry_wf _ _ _ H1 Hwf Hf) as [Hwf1 Hf1].
    exact (IH _ _ H Hwf1 Hf1).
Qed.

Lemma empty_snapshot_wf : snapshot_wf [].
Proof. split; constructor. Qed.

(** X12: Whatever the remote answers, [get_owned_books_with_titles] does not
    raise, and the snapshot it returns has distinct non-empty keys, each
    entry carrying its key as ['id'], a title in lowercase without blanks
    around it, and no empty isbn or author name. *)
Theorem fetched_snapshot_wf {W} (tr : transport W) (s : HardcoverAPI.state W) :
  exists d : owned_dict,
    fst (HardcoverAPI.get_owned_books_with_titles tr s) = inr d
    /\ snapshot_wf d /\ Forall (fun p => fetched_entry p.2) d.
Proof.
  unfold HardcoverAPI.get_owned_books_with_titles. unfold_m.
  destruct (HardcoverAPI.run_query tr GetOwnedBooksWithTitles s) as [[e|data] s1]; simpl.
  { exists []. split; [reflexivity|]. split; [apply empty_snapshot_wf|constructor]. }
  destruct (HardcoverAPI.owned_entries [] (default [] (data_user_books data)))
    as [e|d] eqn:Hd; simpl.
  { exists []. split; [reflexivity|]. split; [apply empty_snapshot_wf|constructor]. }
  exists d. split; [reflexivity|].
  exact (owned_entries_wf _ _ _ Hd empty_snapshot_wf (List.Forall_nil _)).
Qed.

Lemma bad_row_raises (d : owned_dict) (row : user_book_json) :
  bad_row row -> exists e, HardcoverAPI.owned_entry d row = inl e.
Proof.
  unfold bad_row, HardcoverAPI.owned_entry.
  destruct (user_book_book row) as [| |b]; [contradiction|eauto|].
  intros [Hid Ht].
  rewrite (str_id_truthy _ Hid), Ht.
  destruct (HardcoverAPI.rows (book_editions b)); [eauto|].
  destruct (HardcoverAPI.rows (book_contributions b)); [eauto|].
  destruct (HardcoverAPI.contribution_authors _); eauto.
Qed.

Lemma bad_row_raises_all (rows : list user_book_json) : forall d : owned_dict,
  Exists bad_row rows -> exists e, HardcoverAPI.owned_entries d rows = inl e.
Proof.
  induction rows as [|row r IH]; intros d H; [inversion H|]. simpl.
  destruct (HardcoverAPI.owned_entry d row) as [e|d1] eqn:H1; [eauto|].
  apply IH. inversion H as [? ? Hb|]; subst; [|assumption].
  destruct (bad_row_raises d row Hb) as [e He]. congruence.
Qed.

(** X13: One row of the owned list whose book is [null], or whose book has an id
    and a [null] title, empties the whole snapshot: the method returns an
    empty dict, whatever the other rows hold. *)
Theorem bad_row_empties_snapshot {W} (tr : transport W) (s : HardcoverAPI.state W)
    (data : data) (rows : list user_book_json) :
  fst (HardcoverAPI.run_query tr GetOwnedBooksWithTitles s) = inr data ->
  data_user_books data = Some rows ->
  Exists bad_row rows ->
  fst (HardcoverAPI.get_owned_books_with_titles tr s) = inr [].
Proof.
  intros Hq Hrows Hbad.
  unfold HardcoverAPI.get_owned_books_with_titles. unfold_m.
  destruct (HardcoverAPI.run_query tr GetOwnedBooksWithTitles s) as [[e|data'] s1];
    simpl in *; [discriminate|].
  injection Hq as ->. rewrite Hrows. simpl.
  destruct (bad_row_raises_all rows [] Hbad) as [e ->]. reflexivity.
Qed.

Lemma bad_row_empties_snapshot_witness :
  fst (HardcoverAPI.get_owned_books_with_titles Scenario.owned_with_null
         Scenario.client) = inr [].
Proof.
  refine (bad_row_empties_snapshot Scenario.owned_with_null Scenario.client _ _
            eq_refl eq_refl _).
  apply Exists_cons_tl, Exists_cons_hd. exact I.
Defined.

(** ** Accounting of a run *)

(** A property that every turn keeps is kept by the loop. *)
Lemma for_enumerate_invariant {S A} (body : Z -> A -> M S unit) (P : S -> Prop) :
  (forall i x s, fst (body i x s) = inr tt) ->
  (forall i x s, P s -> P (snd (body i x s))) ->
  forall l i s, P s -> P (snd (for_enumerate body i l s)).
Proof.
  intros Htotal Hstep l. induction l as [|x l IH]; intros i s Hs; [exact Hs|].
  rewrite (for_enumerate_cons _ Htotal). apply IH, Hstep, Hs.
Qed.

(** A measure that every turn raises by one is raised by the length of the
    list. *)
Lemma for_enumerate_count {S A} (body : Z -> A -> M S unit) (f : S -> Z) :
  (forall i x s, fst (body i x s) = inr tt) ->
  (forall i x s, f (snd (body i x s)) = f s + 1) ->
  forall l i s, f (snd (for_enumerate body i l s)) = f s + Z.of_nat (List.length l).
Proof.
  intros Htotal Hstep l. induction l as [|x l IH]; intros i s.
  - simpl. lia.
  - rewrite (for_enumerate_cons _ Htotal), IH, Hstep. simpl List.length. lia.
Qed.

Lemma enumerate_map_const {A B} (g : A -> B) (l : list A) (i : Z) :
  enumerate_map (fun _ x => g x) i l = map g l.
Proof.
  revert i. induction l as [|x l IH]; intros i; simpl; [reflexivity|].
  now rewrite IH.
Qed.

Section RunAccounting.

Import SyncJob.

Context {S : Type}.
Variables (api : Api S) (db : Db S).

(** What one turn of the comparison loop does to the job. *)
Lemma compare_book_step (total i book_id : Z) (j : job S) :
  let j' := snd (compare_book db total i book_id j) in
  owned_books j' = owned_books j
  /\ calls j' = calls j ++ [GetMetadata book_id]
  /\ added_to_owned (job_results j') = added_to_owned (job_results j)
  /\ created_new_books (job_results j') = created_new_books (job_results j)
  /\ existing_owned_count (job_results j') = existing_owned_count (job_results j)
  /\ skipped_already_owned (job_results j') + errors (job_results j')
     + Z.of_nat (List.length (books_to_process j'))
     = skipped_already_owned (job_results j) + errors (job_results j)
       + Z.of_nat (List.length (books_to_process j)) + 1
  /\ skipped_already_owned (job_results j) <= skipped_already_owned (job_results j')
  /\ errors (job_results j) <= errors (job_results j')
  /\ (books_to_process j' = books_to_process j
      \/ exists b, books_to_process j' = books_to_process j ++ [b]
                   /\ calibre_id b = book_id /\ entry_title b ≠ "").
Proof.
  cbv zeta. unfold_job. simpl.
  destruct (get_metadata db book_id (outside j)) as [[e|md] s1]; simpl.
  - repeat split; try lia. now left.
  - destruct (Py.truthy_opt _); simpl.
    + repeat split; try lia. now left.
    + rewrite length_app. simpl. repeat split; try lia.
      right. eexists. split; [reflexivity|]. split; [reflexivity|]. simpl.
      unfold title_of. destruct (md_title md) as [t|]; [|discriminate].
      destruct (Py.truthy t) eqn:Ht; [now apply truthy_ne|discriminate].
Qed.

(** The comparison loop from any state, over any list. *)
Lemma compare_loop_spec (total : Z) (l : list Z) : forall (i : Z) (j1 : job S),
  let j' := snd (for_enumerate (compare_book db total) i l j1) in
  owned_books j' = owned_books j1
  /\ calls j' = calls j1 ++ map GetMetadata l
  /\ skipped_already_owned (job_results j') + errors (job_results j')
     + Z.of_nat (List.length (books_to_process j'))
     = skipped_already_owned (job_results j1) + errors (job_results j1)
       + Z.of_nat (List.length (books_to_process j1))
       + Z.of_nat (List.length l)
  /\ skipped_already_owned (job_results j1)
     <= skipped_already_owned (job_results j')
  /\ errors (job_results j1) <= errors (job_results j')
  /\ added_to_owned (job_results j') = added_to_owned (job_results j1)
  /\ created_new_books (job_results j') = created_new_books (job_results j1)
  /\ exists q, books_to_process j' = books_to_process j1 ++ q
               /\ map calibre_id q `sublist_of` l
               /\ Forall (fun b => entry_title b ≠ "") q.
Proof.
  induction l as [|b l IH]; intros i j1.
  - simpl. rewrite !app_nil_r. repeat split; try lia.
    exists []. rewrite app_nil_r. repeat split; constructor.
  - cbv zeta. rewrite (for_enumerate_cons _ (compare_book_total db total)).
    destruct (compare_book_step total i b j1)
      as (Ho1 & Hc1 & Ha1 & Hcr1 & _ & Hn1 & Hs1 & He1 & Hq1).
    cbv zeta in *.
    set (j2 := snd (compare_book db total i b j1)) in *.
    destruct (IH (i + 1) j2) as (Ho & Hc & Hn & Hs & He & Ha & Hcr & q & Hq & Hsub & Ht).
    cbv zeta in *. rewrite Ho, Hc, Ha, Hcr, Ho1, Hc1, Ha1, Hcr1, <- app_assoc.
    simpl List.length. repeat split; try lia.
    destruct Hq1 as [Hq1|(b' & Hq1 & Hid & Htitle)].
    + exists q. rewrite Hq, Hq1. repeat split; [|exact Ht].
      now apply sublist_cons.
    + exists (b' :: q). rewrite Hq, Hq1, <- app_assoc. simpl. rewrite Hid.
      repeat split; [now apply sublist_skip|now constructor].
Qed.

(** The comparison as the rest of the run sees it: it does not raise, keeps
    the snapshot, and moves the counters by the number of books. *)
Lemma compare_all_counters (book_ids : list Z) (j : job S) :
  let r := compare_all db book_ids j in
  let j' := snd r in
  fst r = inr tt
  /\ owned_books j' = owned_books j
  /\ (skipped_already_owned (job_results j') - skipped_already_owned (job_results j))
     + (errors (job_results j') - errors (job_results j))
     + Z.of_nat (List.length (books_to_process j'))
     = Z.of_nat (List.length book_ids)
  /\ skipped_already_owned (job_results j) <= skipped_already_owned (job_results j')
  /\ errors (job_results j) <= errors (job_results j')
  /\ added_to_owned (job_results j') = added_to_owned (job_results j)
  /\ created_new_books (job_results j') = created_new_books (job_results j).
Proof.
  cbv zeta. unfold compare_all. unfold_m.
  unfold set_books_to_process, set_status_message, modify. simpl.
  set (total := Z.of_nat (List.length book_ids)).
  set (j0 := Job _ _ _ _ _ _ _ _).
  split; [apply (for_enumerate_total _ (compare_book_total db total))|].
  destruct (compare_loop_spec total book_ids 0 j0)
    as (Ho & _ & Hn & Hs & He & Ha & Hcr & _).
  cbv zeta in *. simpl in Ho, Hn, Hs, He, Ha, Hcr. subst total.
  repeat split; try assumption; lia.
Qed.

(** X15: The comparison reads every selected book once, in order, and decides
    each against the snapshot as fetched, which it does not change. Each
    book is then skipped, queued or counted as an error: the three numbers
    add up to the number of books. The queue holds the books in the order
    of the selection, each with a non-empty title. *)
Theorem comparison_accounts_for_every_book (book_ids : list Z) (j : job S) :
  let r := compare_all db book_ids j in
  let j' := snd r in
  fst r = inr tt
  /\ owned_books j' = owned_books j
  /\ calls j' = calls j ++ map GetMetadata book_ids
  /\ (skipped_already_owned (job_results j') - skipped_already_owned (job_results j))
     + (errors (job_results j') - errors (job_results j))
     + Z.of_nat (List.length (books_to_process j'))
     = Z.of_nat (List.length book_ids)
  /\ skipped_already_owned (job_results j) <= skipped_already_owned (job_results j')
  /\ errors (job_results j) <= errors (job_results j')
  /\ added_to_owned (job_results j') = added_to_owned (job_results j)
  /\ created_new_books (job_results j') = created_new_books (job_results j)
  /\ map calibre_id (books_to_process j') `sublist_of` book_ids
  /\ Forall (fun b => entry_title b ≠ "") (books_to_process j').
Proof.
  cbv zeta. unfold compare_all. unfold_m.
  unfold set_books_to_process, set_status_message, modify. simpl.
  set (total := Z.of_nat (List.length book_ids)).
  set (j0 := Job _ _ _ _ _ _ _ _).
  split; [apply (for_enumerate_total _ (compare_book_total db total))|].
  destruct (compare_loop_spec total book_ids 0 j0)
    as (Ho & Hc & Hn & Hs & He & Ha & Hcr & q & Hq & Hsub & Ht).
  cbv zeta in *. simpl in Ho, Hc, Hn, Hs, He, Ha, Hcr, Hq. subst total.
  rewrite Hq. repeat split; try assumption. rewrite Hq in Hn. lia.
Qed.

(** What one turn of the processing loop does to the counters: the book is
    added or counted as an error, never both and never neither. *)
Lemma process_book_counts (n i : Z) (b : book_entry) (j : job S) :
  let r := job_results j in
  let r' := job_results (snd (process_book api n i b j)) in
  added_to_owned r' + errors r' = added_to_owned r + errors r + 1
  /\ added_to_owned r <= added_to_owned r' /\ errors r <= errors r'
  /\ skipped_already_owned r' = skipped_already_owned r
  /\ existing_owned_count r' = existing_owned_count r
  /\ created_new_books r <= created_new_books r' <= created_new_books r + 1
  /\ created_new_books r' - created_new_books r
     <= (added_to_owned r' - added_to_owned r) + (errors r' - errors r).
Proof.
  cbv zeta. unfold process_book, process_attempt. unfold_m.
  unfold set_percent, modify. simpl.
  set (j0 := Job _ _ _ _ _ _ _ _).
  pose proof (search_frame api b j0) as Hf. cbv zeta in Hf.
  destruct (search api b j0) as [[e1|l] j1]; simpl in *;
    destruct Hf as (Hres1 & _).
  { unfold add_error, set_results, modify. simpl. rewrite Hres1. simpl.
    repeat split; lia. }
  unfold resolve, mark_owned, invoke, add_error, incr_created, incr_added,
    set_owned_books, set_results. unfold_m.
  destruct l as [|c l]; simpl.
  - destruct (create_book_on_hardcover api _ _ _ (outside j1)) as [[e2|o] s2]; simpl.
    { rewrite Hres1. repeat split; lia. }
    destruct o as [id|]; simpl; [|rewrite Hres1; repeat split; lia].
    destruct (Py.truthy id) eqn:Hid; simpl; [|rewrite Hres1; repeat split; lia].
    rewrite Hid. simpl.
    destruct (add_book_to_owned api id s2) as [[e3|[|]] s3]; simpl;
      rewrite Hres1; repeat split; lia.
  - destruct (book_id (cand_book c)) as [| |id0] eqn:Hid0; simpl.
    + rewrite Hres1. repeat split; lia.
    + destruct (add_book_to_owned api "None" (outside j1)) as [[e3|[|]] s3]; simpl;
        rewrite Hres1; repeat split; lia.
    + rewrite (proj2 (int_str_round_trip id0)). simpl.
      match goal with
      | |- context [add_book_to_owned api ?x ?y] =>
          destruct (add_book_to_owned api x y) as [[e3|[|]] s3]
      end; simpl; rewrite Hres1; repeat split; lia.
Qed.

Lemma compare_all_total (book_ids : list Z) (j : job S) :
  fst (compare_all db book_ids j) = inr tt.
Proof. apply compare_all_counters. Qed.

Lemma process_all_eq (j : job S) :
  process_all api j
  = for_enumerate (process_book api (Z.of_nat (List.length (books_to_process j)))) 0
      (books_to_process j) (snd (set_status_message "Processing new books..." j)).
Proof. reflexivity. Qed.

Lemma process_all_total (j : job S) : fst (process_all api j) = inr tt.
Proof.
  rewrite process_all_eq. apply for_enumerate_total. apply process_book_total.
Qed.

Lemma fetch_snapshot_total (j : job S) : fst (fetch_snapshot api j) = inr tt.
Proof.
  unfold_job. simpl.
  destruct (get_owned_books_with_titles api (outside j)) as [[e|o] s1]; reflexivity.
Qed.

(** A run is its four steps one after the other. *)
Lemma run_unfold (book_ids : list Z) (j : job S) :
  let j1 := snd (fetch_snapshot api
                   (snd (set_status_message
                           "Fetching your current Hardcover library..." j))) in
  let j2 := snd (compare_all db book_ids j1) in
  let j3 := snd (process_all api j2) in
  run api db book_ids j
  = (inr tt, snd (set_status_message "Sync completed!"
                    (snd (set_percent Finished 100 j3)))).
Proof.
  cbv zeta. unfold run. unfold_m.
  set (j0 := snd (set_status_message _ j)).
  change (set_status_message "Fetching your current Hardcover library..." j)
    with (@inr exn unit tt, j0).
  cbv iota. 
  pose proof (fetch_snapshot_total j0) as H1.
  destruct (fetch_snapshot api j0) as [[e|[]] j1]; simpl in H1; [discriminate|].
  simpl snd.
  pose proof (compare_all_total book_ids j1) as H2.
  destruct (compare_all db book_ids j1) as [[e|[]] j2]; simpl in H2; [discriminate|].
  simpl snd.
  pose proof (process_all_total j2) as H3.
  destruct (process_all api j2) as [[e|[]] j3]; simpl in H3; [discriminate|].
  reflexivity.
Qed.

Lemma fetch_snapshot_counters (j : job S) :
  let r := job_results j in
  let r' := job_results (snd (fetch_snapshot api j)) in
  added_to_owned r' = added_to_owned r
  /\ skipped_already_owned r' = skipped_already_owned r
  /\ created_new_books r' = created_new_books r
  /\ errors r' = errors r
  /\ error_details r'
     = error_details r
       ++ match fst (get_owned_books_with_titles api (outside j)) with
          | inl e => ["Failed to get owned books: " +:+ exn_msg e]
          | inr _ => []
          end.
Proof.
  cbv zeta. unfold_job. simpl.
  destruct (get_owned_books_with_titles api (outside j)) as [[e|o] s1]; simpl;
    rewrite ?app_nil_r; repeat split.
Qed.

(** X16: Every selected book ends in exactly one of the three counters: in a run
    from a new job, [added_to_owned], [skipped_already_owned] and [errors]
    add up to the number of selected books, whatever the collaborators do.
    [created_new_books] counts some of the added or failed books again. *)
Theorem every_book_is_counted_once (book_ids : list Z) (s : S) :
  let r := job_results (snd (run api db book_ids (SyncJob.__init__ s))) in
  added_to_owned r + skipped_already_owned r + errors r
  = Z.of_nat (List.length book_ids)
  /\ 0 <= added_to_owned r /\ 0 <= skipped_already_owned r /\ 0 <= errors r
  /\ 0 <= created_new_books r <= added_to_owned r + errors r.
Proof.
  cbv zeta. rewrite run_unfold. cbv zeta. cbn [snd].
  set (j0 := snd (set_status_message _ (SyncJob.__init__ s))).
  destruct (fetch_snapshot_counters j0) as (Ha1 & Hs1 & Hc1 & He1 & _).
  cbv zeta in *. set (j1 := snd (fetch_snapshot api j0)) in *.
  destruct (compare_all_counters book_ids j1)
    as (_ & _ & Hn2 & Hs2 & He2 & Ha2 & Hc2).
  cbv zeta in *. set (j2 := snd (compare_all db book_ids j1)) in *.
  rewrite process_all_eq.
  set (n := Z.of_nat (List.length (books_to_process j2))) in *.
  set (j2' := snd (set_status_message "Processing new books..." j2)).
  assert (Hinv : forall l i j,
            let r := job_results j in
            let r' := job_results (snd (for_enumerate (process_book api n) i l j)) in
            added_to_owned r' + errors r'
            = added_to_owned r + errors r + Z.of_nat (List.length l)
            /\ added_to_owned r <= added_to_owned r' /\ errors r <= errors r'
            /\ skipped_already_owned r' = skipped_already_owned r
            /\ created_new_books r <= created_new_books r'
            /\ created_new_books r' - created_new_books r
               <= (added_to_owned r' - added_to_owned r) + (errors r' - errors r)).
  { clear. induction l as [|b l IH]; intros i j.
    - simpl. repeat split; lia.
    - cbv zeta. rewrite (for_enumerate_cons _ (process_book_total api n)).
      pose proof (process_book_counts n i b j) as H1. cbv zeta in H1.
      specialize (IH (i + 1) (snd (process_book api n i b j))). cbv zeta in IH.
      simpl List.length. repeat split; lia. }
  destruct (Hinv (books_to_process j2) 0 j2') as (Hn3 & Ha3 & He3 & Hs3 & Hc3 & Hc3').
  cbv zeta in *.
  change (job_results j2') with (job_results j2) in *.
  change (job_results j0) with (job_results (SyncJob.__init__ s)) in *.
  simpl in Ha1, Hs1, Hc1, He1. unfold n in *. simpl.
  repeat split; lia.
Qed.

Lemma at_most_one_error_balance (r r' : results) :
  at_most_one_error r r' ->
  Z.of_nat (List.length (error_details r')) - errors r'
  = Z.of_nat (List.length (error_details r)) - errors r.
Proof.
  intros [[-> ->]|(-> & d & ->)]; [reflexivity|].
  rewrite length_app. simpl. lia.
Qed.

(** X17: In a run from a new job, [error_details] holds one detail for each
    counted error, and one more when the snapshot fetch raised (which is not
    counted in [errors]). *)
Theorem errors_match_details (book_ids : list Z) (s : S) :
  let r := job_results (snd (run api db book_ids (SyncJob.__init__ s))) in
  Z.of_nat (List.length (error_details r))
  = errors r + match fst (get_owned_books_with_titles api s) with
               | inl _ => 1
               | inr _ => 0
               end.
Proof.
  cbv zeta. rewrite run_unfold. cbv zeta. cbn [snd].
  set (j0 := snd (set_status_message _ (SyncJob.__init__ s))).
  set (balance := fun j : job S =>
         Z.of_nat (List.length (error_details (job_results j)))
         - errors (job_results j)).
  destruct (fetch_snapshot_counters j0) as (_ & _ & _ & He1 & Hd1).
  cbv zeta in *. set (j1 := snd (fetch_snapshot api j0)) in *.
  change (outside j0) with s in Hd1.
  set (extra := match fst (get_owned_books_with_titles api s) with
                | inl _ => 1 | inr _ => 0 end).
  assert (H1 : balance j1 = extra).
  { unfold balance, extra. rewrite Hd1, He1, length_app. simpl.
    destruct (fst (get_owned_books_with_titles api s)); simpl; lia. }
  assert (H2 : balance (snd (compare_all db book_ids j1)) = extra).
  { unfold compare_all. unfold_m.
    unfold set_books_to_process, set_status_message, modify. simpl.
    apply (for_enumerate_invariant _ (fun j => balance j = extra)
             (compare_book_total db _)); [|exact H1].
    intros i x j Hj. rewrite <- Hj. unfold balance.
    apply at_most_one_error_balance, compare_book_errors. }
  set (j2 := snd (compare_all db book_ids j1)) in *.
  assert (H3 : balance (snd (process_all api j2)) = extra).
  { rewrite process_all_eq.
    apply (for_enumerate_invariant _ (fun j => balance j = extra)
             (process_book_total api _)); [|exact H2].
    intros i x j Hj. rewrite <- Hj. unfold balance.
    apply at_most_one_error_balance, process_book_errors. }
  unfold balance in H3. simpl. lia.
Qed.

(** A turn of the processing loop keeps the snapshot well-formed and loses
    no key. *)
Lemma process_book_wf (n i : Z) (b : book_entry) (j : job S) :
  snapshot_wf (owned_books j) ->
  snapshot_wf (owned_books (snd (process_book api n i b j)))
  /\ (forall k, In k (map fst (owned_books j)) ->
      In k (map fst (owned_books (snd (process_book api n i b j))))).
Proof.
  intros Hwf. unfold process_book, process_attempt. unfold_m.
  unfold set_percent, modify. simpl.
  set (j0 := Job _ _ _ _ _ _ _ _).
  pose proof (search_frame api b j0) as Hf. cbv zeta in Hf.
  destruct (search api b j0) as [[e1|l] j1]; simpl in *;
    destruct Hf as (_ & Hown1 & _).
  { unfold add_error, set_results, modify. simpl. rewrite Hown1. now split. }
  pose proof (resolve_frame api b l j1) as Hg. cbv zeta in Hg.
  destruct (resolve api b l j1) as [[e|[id|]] j2]; simpl in *;
    destruct Hg as (Hown2 & _);
    try (unfold add_error, set_results, modify; simpl;
         rewrite ?Hown2, ?Hown1; now split).
  unfold mark_owned, invoke, add_error, incr_added, set_owned_books, set_results.
  unfold_m.
  destruct (Py.truthy id) eqn:Hid; simpl; [|rewrite Hown2, Hown1; now split].
  destruct (add_book_to_owned api id (outside j2)) as [[e|[|]] s3]; simpl;
    rewrite Hown2, Hown1; try (now split).
  apply dict_set_wf; [exact Hwf|now apply truthy_ne|reflexivity].
Qed.

(** X18: When the snapshot fetch returns a well-formed snapshot, the snapshot is
    well-formed at the end of the run, with distinct non-empty keys, and
    every key that was fetched is still there: the run adds or replaces
    entries and never removes one. *)
Theorem run_keeps_snapshot_wf (book_ids : list Z) (j : job S) (d : owned_dict)
    (s1 : S) :
  get_owned_books_with_titles api (outside j) = (inr d, s1) ->
  snapshot_wf d ->
  let j' := snd (run api db book_ids j) in
  snapshot_wf (owned_books j')
  /\ (forall k, In k (map fst d) -> In k (map fst (owned_books j')))
  /\ existing_owned_count (job_results j') = Z.of_nat (List.length d).
Proof.
  intros Hfetch Hwf. cbv zeta. rewrite run_unfold. cbv zeta. cbn [snd].
  set (j0 := snd (set_status_message _ j)).
  assert (H1 : owned_books (snd (fetch_snapshot api j0)) = d
               /\ existing_owned_count (job_results (snd (fetch_snapshot api j0)))
                  = Z.of_nat (List.length d)).
  { unfold_job. simpl. rewrite Hfetch. simpl. now split. }
  set (j1 := snd (fetch_snapshot api j0)) in *. destruct H1 as [H1 Hcount1].
  destruct (compare_all_counters book_ids j1) as (_ & H2 & _).
  cbv zeta in H2. set (j2 := snd (compare_all db book_ids j1)) in *.
  assert (Hcount2 : existing_owned_count (job_results j2)
                    = existing_owned_count (job_results j1)).
  { unfold j2, compare_all. unfold_m.
    unfold set_books_to_process, set_status_message, modify. simpl.
    apply (for_enumerate_invariant _
             (fun j => existing_owned_count (job_results j)
                       = existing_owned_count (job_results j1))
             (compare_book_total db _)); [|reflexivity].
    intros i x j3 Hj. rewrite <- Hj. apply compare_book_step. }
  rewrite process_all_eq.
  set (n := Z.of_nat (List.length (books_to_process j2))).
  set (j2' := snd (set_status_message "Processing new books..." j2)).
  assert (H3 : (snapshot_wf (owned_books (snd (for_enumerate (process_book api n) 0
                                                 (books_to_process j2) j2')))
                /\ forall k, In k (map fst d) ->
                     In k (map fst (owned_books
                                      (snd (for_enumerate (process_book api n) 0
                                              (books_to_process j2) j2')))))
               /\ existing_owned_count
                    (job_results (snd (for_enumerate (process_book api n) 0
                                         (books_to_process j2) j2')))
                  = Z.of_nat (List.length d)).
  { apply (for_enumerate_invariant _
             (fun j => (snapshot_wf (owned_books j)
                        /\ forall k, In k (map fst d) -> In k (map fst (owned_books j)))
                       /\ existing_owned_count (job_results j)
                          = Z.of_nat (List.length d))
             (process_book_total api n)).
    - intros i x j3 [[Hw Hk] Hc].
      destruct (process_book_wf n i x j3 Hw) as [Hw' Hk']. split; [split|].
      + exact Hw'.
      + intros k Hin. apply Hk', Hk, Hin.
      + rewrite <- Hc. apply process_book_counts.
    - change (owned_books j2') with (owned_books j2).
      change (job_results j2') with (job_results j2).
      rewrite H2, H1, Hcount2, Hcount1. repeat split; [apply Hwf|apply Hwf|auto]. }
  destruct H3 as [[Hw Hk] Hc]. simpl. repeat split; try apply Hw; assumption.
Qed.

End RunAccounting.

Lemma run_keeps_snapshot_wf_witness :
  snapshot_wf (SyncJob.owned_books (snd Scenario.run_shelf)).
Proof.
  refine (proj1 (run_keeps_snapshot_wf (hardcover_api Scenario.library)
                   (Scenario.catalog Scenario.shelf) [1; 2; 3; 4; 5]
                   Scenario.fresh_job []
                   (snd (HardcoverAPI.get_owned_books_with_titles Scenario.library
                           Scenario.client)) _ _)).
  - vm_compute. reflexivity.
  - apply empty_snapshot_wf.
Defined.

(** ** A book that the search finds *)

(** X19: When the search of a queued book returns candidates and the first one
    has an id, the turn takes that id: it makes no creation call and leaves
    [created_new_books] as it was; after the searches its only call is
    [add_book_to_owned] on the text of that id. *)
Theorem found_book_is_not_created {S} (api : Api S) (n i : Z)
    (b : SyncJob.book_entry) (j j1 : SyncJob.job S) (c : candidate)
    (l : list candidate) :
  SyncJob.search api b
    (snd (SyncJob.set_percent SyncJob.Processing (SyncJob.processing_progress n i) j))
  = (inr (c :: l), j1) ->
  book_id (cand_book c) ≠ Absent ->
  let j' := snd (SyncJob.process_book api n i b j) in
  SyncJob.created_new_books (SyncJob.job_results j')
  = SyncJob.created_new_books (SyncJob.job_results j)
  /\ exists cs,
       SyncJob.calls j'
       = SyncJob.calls j ++ cs
         ++ [SyncJob.AddToOwned (HardcoverAPI.str_id (book_id (cand_book c)))]
       /\ Forall SyncJob.is_search cs.
Proof.
  intros Hs Hid.
  pose proof (search_frame api b
                (snd (SyncJob.set_percent SyncJob.Processing
                        (SyncJob.processing_progress n i) j))) as Hf.
  rewrite Hs in Hf. cbv zeta in Hf. simpl in Hf.
  destruct Hf as (Hres & _ & _ & _ & _ & cs & Hcs & Hall).
  cbv zeta. unfold SyncJob.process_book, SyncJob.process_attempt. unfold_m.
  unfold SyncJob.set_percent, modify in Hs. simpl in Hs.
  unfold SyncJob.set_percent, modify. simpl.
  rewrite !Hs. simpl.
  unfold SyncJob.resolve, SyncJob.mark_owned, SyncJob.invoke, SyncJob.add_error,
    SyncJob.incr_added, SyncJob.set_owned_books, SyncJob.set_results. unfold_m.
  pose proof (str_id_truthy _ Hid) as Htruthy.
  destruct (book_id (cand_book c)) as [| |id0]; [contradiction| |]; simpl in *;
    rewrite ?Htruthy; simpl;
    match goal with
    | |- context [add_book_to_owned api ?x ?y] =>
        destruct (add_book_to_owned api x y) as [[e3|[|]] s3]
    end; simpl; rewrite Hres, Hcs; (split; [reflexivity|]);
    exists cs; rewrite <- app_assoc; split; (reflexivity || assumption).
Qed.

Lemma found_book_is_not_created_witness :
  let api := hardcover_api Scenario.library in
  let b := Scenario.queued 1 Scenario.dune in
  let j' := snd (SyncJob.process_book api 4 0 b Scenario.fresh_job) in
  SyncJob.created_new_books (SyncJob.job_results j') = 0
  /\ exists cs, SyncJob.calls j' = [] ++ cs ++ [SyncJob.AddToOwned "42"]
                /\ Forall SyncJob.is_search cs.
Proof.
  cbv zeta.
  set (api := hardcover_api Scenario.library).
  set (b := Scenario.queued 1 Scenario.dune).
  set (sr := SyncJob.search api b
               (snd (SyncJob.set_percent SyncJob.Processing
                       (SyncJob.processing_progress 4 0) Scenario.fresh_job))).
  assert (Hs : sr = (inr [ {| cand_book := Scenario.remote_book (Val 42) "Dune";
                              matching_edition :=
                                Some {| row_isbn_10 := Null;
                                        row_isbn_13 := Val "9780441013593";
                                        row_book :=
                                          Val (Scenario.remote_book (Val 42) "Dune") |}
                           |} ], snd sr)) by (vm_compute; reflexivity).
  exact (found_book_is_not_created api 4 0 b Scenario.fresh_job (snd sr) _ []
           Hs ltac:(discriminate)).
Defined.

(** ** Starting a sync *)

(** X20: [sync_library] opens the sync dialog only with a token that is not blank
    and a list of books that is not empty. The list is the one it was given
    or, without one, the selection; when that is empty it is all the books
    of the library. *)
Theorem sync_starts_with_token_and_books (api_token : string) (rate_limit_delay : Q)
    (book_ids : option (list Z)) (get_selected_ids all_ids : exn + list Z)
    (token : string) (rate : Q) (ids : list Z) :
  sync_library api_token rate_limit_delay book_ids get_selected_ids all_ids
  = ShowSyncDialog token rate ids ->
  token = Py.strip api_token /\ token ≠ "" /\ rate = rate_limit_delay /\ ids ≠ []
  /\ exists given,
       match book_ids with None => get_selected_ids | Some l => inr l end = inr given
       /\ (given ≠ [] -> ids = given)
       /\ (given = [] -> all_ids = inr ids).
Proof.
  unfold sync_library.
  destruct (Py.truthy (Py.strip api_token)) eqn:Ht; simpl; [|discriminate].
  apply truthy_ne in Ht.
  destruct (match book_ids with None => get_selected_ids | Some l => inr l end)
    as [e|given]; [discriminate|].
  destruct given as [|x given]; simpl.
  - destruct all_ids as [e|all]; [discriminate|].
    destruct all as [|y all]; simpl; [discriminate|].
    intros [= <- <- <-]. repeat split; try assumption; try discriminate.
    exists []. repeat split; congruence.
  - intros [= <- <- <-]. repeat split; try assumption; try discriminate.
    exists (x :: given). repeat split; congruence.
Qed.

Lemma sync_starts_with_token_and_books_witness :
  sync_library " tok " (11 # 10) None (inr []) (inr [1; 2])
  = ShowSyncDialog "tok" (11 # 10) [1; 2]
  /\ "tok" ≠ "" /\ [1; 2] ≠ ([] : list Z).
Proof.
  destruct (sync_starts_with_token_and_books " tok " (11 # 10) None (inr [])
              (inr [1; 2]) "tok" (11 # 10) [1; 2] eq_refl)
    as (_ & Ht & _ & Hi & _).
  split; [reflexivity|]. split; assumption.
Defined.

Lemma fetch_exception_recorded_witness :
  SyncJob.error_details
    (SyncJob.job_results
       (snd (SyncJob.fetch_snapshot Scenario.offline (SyncJob.__init__ tt))))
  = [] ++ ["Failed to get owned books: offline"].
Proof.
  exact (proj1 (proj2 (proj2
           (fetch_exception_recorded Scenario.offline (SyncJob.__init__ tt)
              (Exception "offline") tt eq_refl)))).
Defined.

(** * A run, book by book *)

Section RunByBook.

Import SyncJob.

Context {S : Type}.
Variables (api : Api S) (db : Db S).

(** The run does not raise, and its job goes through the named points in
    order. *)
Lemma run_steps (book_ids : list Z) (j : job S) :
  run api db book_ids j
  = (inr tt, finished (processed api (compared db book_ids (fetched api j)))).
Proof. rewrite run_unfold. reflexivity. Qed.

(** The comparison loop at the book after [pre]. *)
Lemma compare_loop_at (total : Z) (pre : list Z) (book_id : Z) (post : list Z)
    (j : job S) :
  snd (for_enumerate (compare_book db total) 0 (pre ++ book_id :: post) j)
  = snd (for_enumerate (compare_book db total) (Z.of_nat (List.length pre) + 1) post
           (snd (compare_book db total (Z.of_nat (List.length pre)) book_id
                   (snd (for_enumerate (compare_book db total) 0 pre j))))).
Proof.
  rewrite (for_enumerate_app _ (compare_book_total db total)).
  now rewrite (for_enumerate_cons _ (compare_book_total db total)).
Qed.

(** The processing loop at the book after [pre]. *)
Lemma process_loop_at (n : Z) (pre : list book_entry) (b : book_entry)
    (post : list book_entry) (j : job S) :
  snd (for_enumerate (process_book api n) 0 (pre ++ b :: post) j)
  = snd (for_enumerate (process_book api n) (Z.of_nat (List.length pre) + 1) post
           (snd (process_book api n (Z.of_nat (List.length pre)) b
                   (snd (for_enumerate (process_book api n) 0 pre j))))).
Proof.
  rewrite (for_enumerate_app _ (process_book_total api n)).
  now rewrite (for_enumerate_cons _ (process_book_total api n)).
Qed.

(** A turn of the comparison loop in which the read fails. *)
Lemma compare_book_read_failure (total i book_id : Z) (j : job S) (e : exn) (s' : S) :
  get_metadata db book_id (outside j) = (inl e, s') ->
  let j' := snd (compare_book db total i book_id j) in
  errors (job_results j') = errors (job_results j) + 1
  /\ error_details (job_results j')
     = error_details (job_results j)
       ++ ["Failed to read book " +:+ Py.str_int book_id +:+ ": " +:+ exn_msg e]
  /\ added_to_owned (job_results j') = added_to_owned (job_results j)
  /\ skipped_already_owned (job_results j') = skipped_already_owned (job_results j)
  /\ created_new_books (job_results j') = created_new_books (job_results j)
  /\ owned_books j' = owned_books j
  /\ books_to_process j' = books_to_process j.
Proof.
  intros Hread. cbv zeta. unfold_job. simpl. rewrite Hread. simpl. repeat split.
Qed.

(** A turn of the processing loop whose attempt raises. *)
Lemma process_book_raise (n i : Z) (b : book_entry) (j ja : job S) (e : exn) :
  process_attempt api n i b j = (inl e, ja) ->
  let j' := snd (process_book api n i b j) in
  errors (job_results j') = errors (job_results j) + 1
  /\ error_details (job_results j')
     = error_details (job_results j)
       ++ ["Error processing '" +:+ entry_title b +:+ "': " +:+ exn_msg e]
  /\ added_to_owned (job_results j') = added_to_owned (job_results j)
  /\ skipped_already_owned (job_results j') = skipped_already_owned (job_results j)
  /\ owned_books j' = owned_books j.
Proof.
  intros Hraise. cbv zeta.
  destruct (process_attempt_raise _ _ _ _ _ _ _ Hraise) as (He & Hd & Ha & Ho).
  destruct (process_book_counts api n i b j) as (_ & _ & _ & Hs & _).
  cbv zeta in Hs. revert Hs.
  unfold process_book. unfold_m. rewrite Hraise.
  unfold add_error, set_results, modify. simpl.
  rewrite He, Hd, Ha, Ho. intros Hs. repeat split. exact Hs.
Qed.

(** C3: in every run, at every position of the selection and of the queue,
    the turn of the loop for the book at that position ends normally and
    counts at most one error, with one detail, and the run goes on with the
    books after it from the job that this turn leaves. A book whose
    metadata cannot be read counts exactly one error with its detail and
    changes no other counter, the snapshot or the queue; a book whose
    processing raises counts exactly one error with its detail and leaves
    [added_to_owned], [skipped_already_owned] and the snapshot alone; a
    queued book that is not added is counted as one error. Every selected
    book is read and every queued book is processed, whatever failed
    before it, and at the end every selected book is in one of the three
    counters. The run itself does not raise. *)
Theorem per_book_isolation (book_ids : list Z) (j : job S) :
  let total := Z.of_nat (List.length book_ids) in
  let j1 := fetched api j in
  let j2 := compared db book_ids j1 in
  let queue := books_to_process j2 in
  let n := Z.of_nat (List.length queue) in
  run api db book_ids j = (inr tt, finished (processed api j2))
  /\ (forall (pre : list Z) (book_id : Z) (post : list Z),
        book_ids = pre ++ book_id :: post ->
        let i := Z.of_nat (List.length pre) in
        let J := snd (for_enumerate (compare_book db total) 0 pre (comparing j1)) in
        let J' := snd (compare_book db total i book_id J) in
        run api db book_ids j
        = (inr tt,
           finished (processed api
             (snd (for_enumerate (compare_book db total) (i + 1) post J'))))
        /\ fst (compare_book db total i book_id J) = inr tt
        /\ at_most_one_error (job_results J) (job_results J')
        /\ owned_books J' = owned_books J
        /\ forall (e : exn) (s' : S),
             get_metadata db book_id (outside J) = (inl e, s') ->
             errors (job_results J') = errors (job_results J) + 1
             /\ error_details (job_results J')
                = error_details (job_results J)
                  ++ ["Failed to read book " +:+ Py.str_int book_id +:+ ": "
                      +:+ exn_msg e]
             /\ added_to_owned (job_results J') = added_to_owned (job_results J)
             /\ skipped_already_owned (job_results J')
                = skipped_already_owned (job_results J)
             /\ created_new_books (job_results J') = created_new_books (job_results J)
             /\ books_to_process J' = books_to_process J)
  /\ (forall (pre : list book_entry) (b : book_entry) (post : list book_entry),
        queue = pre ++ b :: post ->
        let i := Z.of_nat (List.length pre) in
        let P := snd (for_enumerate (process_book api n) 0 pre (processing j2)) in
        let P' := snd (process_book api n i b P) in
        run api db book_ids j
        = (inr tt,
           finished (snd (for_enumerate (process_book api n) (i + 1) post P')))
        /\ fst (process_book api n i b P) = inr tt
        /\ at_most_one_error (job_results P) (job_results P')
        /\ added_to_owned (job_results P') + errors (job_results P')
           = added_to_owned (job_results P) + errors (job_results P) + 1
        /\ forall (e : exn) (ja : job S),
             process_attempt api n i b P = (inl e, ja) ->
             errors (job_results P') = errors (job_results P) + 1
             /\ error_details (job_results P')
                = error_details (job_results P)
                  ++ ["Error processing '" +:+ entry_title b +:+ "': " +:+ exn_msg e]
             /\ added_to_owned (job_results P') = added_to_owned (job_results P)
             /\ skipped_already_owned (job_results P')
                = skipped_already_owned (job_results P)
             /\ owned_books P' = owned_books P)
  /\ calls j2 = calls j1 ++ map GetMetadata book_ids
  /\ percent_writes (processed api j2)
     = percent_writes j2
       ++ enumerate_map (fun k _ => (Processing, processing_progress n k)) 0 queue
  /\ (let r := job_results (snd (run api db book_ids j)) in
      added_to_owned r + skipped_already_owned r + errors r
      = added_to_owned (job_results j) + skipped_already_owned (job_results j)
        + errors (job_results j) + Z.of_nat (List.length book_ids)).
Proof.
  cbv zeta. rewrite !run_steps.
  split; [reflexivity|]. split; [|split; [|split; [|split]]].
  - intros pre book_id post ->.
    split; [unfold compared; now rewrite compare_loop_at|].
    split; [apply compare_book_total|].
    split; [apply compare_book_errors|].
    split; [apply (compare_book_step db)|].
    intros e s' Hread.
    destruct (compare_book_read_failure
                (Z.of_nat (List.length (pre ++ book_id :: post)))
                (Z.of_nat (List.length pre)) _ _ _ _ Hread)
      as (He & Hd & Ha & Hs & Hc & _ & Hq).
    now repeat split.
  - intros pre b post Hq.
    split.
    { unfold processed. rewrite Hq at 2. now rewrite process_loop_at. }
    split; [apply process_book_total|].
    split; [apply process_book_errors|].
    split; [apply (process_book_counts api)|].
    intros e ja Hraise.
    destruct (process_book_raise _ _ _ _ _ _ Hraise) as (He & Hd & Ha & Hs & Ho).
    now repeat split.
  - unfold compared.
    destruct (compare_loop_spec db (Z.of_nat (List.length book_ids)) book_ids 0
                (comparing (fetched api j))) as (_ & Hc & _).
    exact Hc.
  - unfold processed.
    rewrite (for_enumerate_log _ percent_writes
               (fun k _ => (Processing,
                  processing_progress
                    (Z.of_nat (List.length
                       (books_to_process (compared db book_ids (fetched api j))))) k))
               (process_book_total api _) (process_book_writes api _)).
    reflexivity.
  - cbn [snd].
    set (j0 := snd (set_status_message "Fetching your current Hardcover library..." j)).
    destruct (fetch_snapshot_counters api j0) as (Ha1 & Hs1 & _ & He1 & _).
    cbv zeta in Ha1, Hs1, He1.
    change (snd (fetch_snapshot api j0)) with (fetched api j) in *.
    change (job_results j0) with (job_results j) in *.
    destruct (compare_all_counters db book_ids (fetched api j))
      as (_ & _ & Hn2 & _ & _ & Ha2 & _).
    cbv zeta in Hn2, Ha2.
    change (snd (compare_all db book_ids (fetched api j)))
      with (compared db book_ids (fetched api j)) in *.
    set (j2 := compared db book_ids (fetched api j)) in *.
    set (n := Z.of_nat (List.length (books_to_process j2))) in *.
    pose proof (for_enumerate_count (process_book api n)
                  (fun x => added_to_owned (job_results x) + errors (job_results x))
                  (process_book_total api n)
                  (fun i x s => proj1 (process_book_counts api n i x s))
                  (books_to_process j2) 0 (processing j2)) as Hn3.
    pose proof (for_enumerate_invariant (process_book api n)
                  (fun x => skipped_already_owned (job_results x)
                            = skipped_already_owned (job_results j2))
                  (process_book_total api n)) as Hs3.
    specialize (Hs3 (fun i x s Hx =>
                  eq_trans (proj1 (proj2 (proj2 (proj2 (process_book_counts api n i x s)))))
                    Hx) (books_to_process j2) 0 (processing j2) eq_refl).
    cbv beta in Hn3, Hs3.
    change (job_results (processing j2)) with (job_results j2) in *.
    change (job_results (finished (processed api j2)))
      with (job_results (processed api j2)).
    unfold processed. fold n. lia.
Qed.

End RunByBook.

Lemma per_book_isolation_witness :
  let api := hardcover_api Scenario.library in
  let db := Scenario.catalog Scenario.shelf in
  let j2 := SyncJob.compared db [1; 2; 3; 4; 5] (SyncJob.fetched api Scenario.fresh_job) in
  let n := Z.of_nat (List.length (SyncJob.books_to_process j2)) in
  let J := snd (for_enumerate (SyncJob.compare_book db 5) 0 [1]
                  (SyncJob.comparing (SyncJob.fetched api Scenario.fresh_job))) in
  let J' := snd (SyncJob.compare_book db 5 1 2 J) in
  let P := snd (for_enumerate (SyncJob.process_book api n) 0
                  [Scenario.queued 1 Scenario.dune] (SyncJob.processing j2)) in
  let P' := snd (SyncJob.process_book api n 1 (Scenario.queued 3 Scenario.broken) P) in
  (Scenario.run_shelf
   = (inr tt,
      SyncJob.finished (SyncJob.processed api
        (snd (for_enumerate (SyncJob.compare_book db 5) 2 [3; 4; 5] J'))))
   /\ SyncJob.error_details (SyncJob.job_results J')
      = SyncJob.error_details (SyncJob.job_results J)
        ++ ["Failed to read book 2: no such book"])
  /\ (Scenario.run_shelf
      = (inr tt,
         SyncJob.finished
           (snd (for_enumerate (SyncJob.process_book api n) 2
                   [Scenario.queued 4 Scenario.solaris;
                    Scenario.queued 5 Scenario.neuromancer] P')))
      /\ SyncJob.error_details (SyncJob.job_results P')
         = SyncJob.error_details (SyncJob.job_results P)
           ++ ["Error processing 'Broken': 'id'"]).
Proof.
  cbv zeta.
  set (api := hardcover_api Scenario.library).
  set (db := Scenario.catalog Scenario.shelf).
  set (j2 := SyncJob.compared db [1; 2; 3; 4; 5] (SyncJob.fetched api Scenario.fresh_job)).
  destruct (per_book_isolation api db [1; 2; 3; 4; 5] Scenario.fresh_job)
    as (_ & Hcompare & Hprocess & _).
  split.
  - destruct (Hcompare [1] 2 [3; 4; 5] eq_refl) as (Hrun & _ & _ & _ & Hfail).
    split; [exact Hrun|].
    set (J := snd (for_enumerate (SyncJob.compare_book db 5) 0 [1]
                     (SyncJob.comparing (SyncJob.fetched api Scenario.fresh_job)))).
    destruct (Hfail (Exception "no such book") (SyncJob.outside J) eq_refl)
      as (_ & Hd & _).
    exact Hd.
  - assert (Hq : SyncJob.books_to_process j2
                 = [Scenario.queued 1 Scenario.dune]
                   ++ Scenario.queued 3 Scenario.broken
                      :: [Scenario.queued 4 Scenario.solaris;
                          Scenario.queued 5 Scenario.neuromancer])
      by (vm_compute; reflexivity).
    destruct (Hprocess _ _ _ Hq) as (Hrun & _ & _ & _ & Hfail).
    split; [exact Hrun|].
    set (n := Z.of_nat (List.length (SyncJob.books_to_process j2))) in *.
    set (P := snd (for_enumerate (SyncJob.process_book api n) 0
                     [Scenario.queued 1 Scenario.dune] (SyncJob.processing j2))) in *.
    set (pa := SyncJob.process_attempt api n 1 (Scenario.queued 3 Scenario.broken) P).
    assert (Hp : pa = (inl HardcoverAPI.KeyError_id, snd pa))
      by (vm_compute; reflexivity).
    destruct (Hfail HardcoverAPI.KeyError_id (snd pa) Hp) as (_ & Hd & _).
    exact Hd.
Defined.

(** * The snapshot at the time of a comparison *)





Section SnapshotAtComparison.

Import SyncJob.

Context {S : Type}.
Variables (api : Api S) (db : Db S).




End SnapshotAtComparison.




(** The run over the two books. Where the remote holds the isbn of book 1
    without hyphens, the book is skipped as owned; where it holds it with
    hyphens, the comparison misses the book, and the run goes on to search
    for it and to create it. *)
Example run_imports_results :
  SyncJob.job_results (snd (Scenario.run_imports Scenario.plain))
  = SyncJob.Results 0 1 0 1 1 ["Failed to create book: Solaris"]
  /\ SyncJob.job_results (snd (Scenario.run_imports Scenario.hyphenated))
     = SyncJob.Results 0 0 0 1 2
         ["Failed to create book: Der Wuestenplanet"; "Failed to create book: Solaris"].
Proof. split; vm_compute; reflexivity. Qed.
